(** * pava: the class-file decoder of [jvmparser.py]

    A shallow embedding of the decoder in [src/jvmparser.py] and the
    properties its specification states about it.

    Conventions of the embedding:
    - Python values that the decoder builds (ints, bytes, strs, lists and
      dicts with string keys) are the constructors of [pyval]; a dict is a
      [gmap string pyval].
    - A binary stream ([io.BytesIO], [BufferedReader]) is the list of bytes
      not yet read; code that reads from a stream is a function of type
      [M A], from the stream to an [outcome] carrying the value read and the
      rest of the stream.
    - A raised exception is [Raise e]; [e] records the exception class and,
      where the source gives one, the message.
    - [assert] statements are executed (the interpreter is not run with -O).
    - The interpreter's recursion limit is not modelled.
    - The modules [utils] and [jvmconsts] that the source imports are not
      part of src/: the primitive readers follow the specification, and
      the tag enumeration and flag tables are a parameter of the decoder.

    The specification names errors where the source raises exceptions:
    UnsupportedConstantTag and UnsupportedFeature are
    [NotImplementedError]; InvalidMagic and NotFound are [RuntimeError];
    UnsupportedAttribute is the [ValueError] of the enumeration of
    attribute names; BadIndex is whichever of [AssertionError],
    [IndexError], [KeyError], [TypeError] and [AttributeError] the lookup
    raises; [TruncatedInput] is the error of the primitive readers. *)

From Stdlib Require Import ZArith String HexString.
From Stdlib.Strings Require Import Byte.
From stdpp Require Import base numbers list strings gmap pretty.

#[local] Set Warnings "-register-all".
#[local] Open Scope Z_scope.

(** ** Python values and exceptions *)

Inductive pyval :=
| VInt (n : Z)
| VFloat (bits : Z)
| VBytes (b : list byte)
| VStr (s : string)
| VList (l : list pyval)
| VDict (d : gmap string pyval).

Inductive exn :=
| IndexError
| KeyError (key : pyval)
| TypeError
| AttributeError
| ValueError
| UnicodeDecodeError
| AssertionError (msg : string)
| NotImplementedError (msg : string)
| RuntimeError (msg : string)
| TruncatedInput.

(** [OutOfFuel] is not a Python outcome: it is what the fuel-indexed
    attribute decoder answers when its fuel is spent.  Started with more
    fuel than the stream has bytes it never answers it
    ([fuel_irrelevant], [parse_attributes_total],
    [parse_class_file_total]). *)
Inductive outcome (A : Type) :=
| Return (a : A)
| Raise (e : exn)
| OutOfFuel.
Arguments Return {A} a.
Arguments Raise {A} e.
Arguments OutOfFuel {A}.

Definition obind {A B} (r : outcome A) (k : A → outcome B) : outcome B :=
  match r with
  | Return a => k a
  | Raise e => Raise e
  | OutOfFuel => OutOfFuel
  end.

Notation "x <~ r ;;; k" := (obind r (λ x, k))
  (at level 63, r at next level, right associativity).

Abbreviation stream := (list byte).

Definition M (A : Type) : Type := stream → outcome (A * stream).

Definition ret {A} (a : A) : M A := λ f, Return (a, f).
Definition raise {A} (e : exn) : M A := λ _, Raise e.
Definition bind {A B} (m : M A) (k : A → M B) : M B :=
  λ f, match m f with
       | Return (a, f') => k a f'
       | Raise e => Raise e
       | OutOfFuel => OutOfFuel
       end.
Definition lift {A} (r : outcome A) : M A :=
  λ f, match r with
       | Return a => Return (a, f)
       | Raise e => Raise e
       | OutOfFuel => OutOfFuel
       end.

Notation "x <~ m ;; k" := (bind m (λ x, k))
  (at level 63, m at next level, right associativity).

(** [for _ in range(n): s = body(s)] *)
Fixpoint iterM {S} (n : nat) (body : S → M S) (s : S) : M S :=
  match n with
  | O => ret s
  | S k => s' <~ body s ;; iterM k body s'
  end.

Definition for_range {S} (n : Z) (body : S → M S) (s : S) : M S :=
  iterM (Z.to_nat n) body s.

(** A loop that appends what [m] reads: [for _ in range(n):
    acc.append(m())]. *)
Definition appending {A} (m : M A) : list A → M (list A) :=
  λ acc, x <~ m ;; ret (acc ++ [x]).

(** [encodes m bs x]: the bytes [bs] are a complete encoding of [x] for
    the reader [m], whatever follows them. *)
Definition encodes {A} (m : M A) (bs : list byte) (x : A) : Prop :=
  ∀ rest, m (bs ++ rest) = Return (x, rest).

(** [io.BytesIO(bs)] read by [m], the stream then dropped. *)
Definition on_bytes {A} (m : M A) (bs : list byte) : outcome A :=
  match m bs with
  | Return (a, _) => Return a
  | Raise e => Raise e
  | OutOfFuel => OutOfFuel
  end.

(** [l[i]] on a list: negative indices count from the end. *)
Definition py_index {A} (l : list A) (i : Z) : outcome A :=
  let n := Z.of_nat (length l) in
  if decide (0 ≤ i < n) then
    match l !! Z.to_nat i with Some x => Return x | None => Raise IndexError end
  else if decide (- n ≤ i < 0) then
    match l !! Z.to_nat (n + i) with Some x => Return x | None => Raise IndexError end
  else Raise IndexError.

(** [v[key]] for a string key. *)
Definition py_item (v : pyval) (key : string) : outcome pyval :=
  match v with
  | VDict d => match d !! key with
               | Some x => Return x
               | None => Raise (KeyError (VStr key))
               end
  | _ => Raise TypeError
  end.

(** [l[v - 1]] where [v] is a value taken from a dict. *)
Definition py_index_pred (l : list pyval) (v : pyval) : outcome pyval :=
  match v with
  | VInt n => py_index l (n - 1)
  | _ => Raise TypeError
  end.

(** *** [bytes.decode('utf-8')]

    A Python [str] is represented by its UTF-8 encoding, held in a
    [string]; the strict decoder accepts exactly the well-formed
    encodings of code points other than surrogates. *)

Definition cont (b : N) : bool := ((128 <=? b) && (b <=? 191))%N.
Definition between (lo hi b : N) : bool := ((lo <=? b) && (b <=? hi))%N.

Fixpoint utf8_valid (bs : list N) : bool :=
  match bs with
  | [] => true
  | b0 :: r0 =>
      if (b0 <? 128)%N then utf8_valid r0
      else if between 194 223 b0 then
        match r0 with
        | b1 :: r1 => cont b1 && utf8_valid r1
        | _ => false
        end
      else if between 224 239 b0 then
        match r0 with
        | b1 :: b2 :: r2 =>
            (if (b0 =? 224)%N then between 160 191 b1
             else if (b0 =? 237)%N then between 128 159 b1
             else cont b1)
            && cont b2 && utf8_valid r2
        | _ => false
        end
      else if between 240 244 b0 then
        match r0 with
        | b1 :: b2 :: b3 :: r3 =>
            (if (b0 =? 240)%N then between 144 191 b1
             else if (b0 =? 244)%N then between 128 143 b1
             else cont b1)
            && cont b2 && cont b3 && utf8_valid r3
        | _ => false
        end
      else false
  end.

Definition decode_utf8 (v : pyval) : outcome string :=
  match v with
  | VBytes b =>
      if utf8_valid (Byte.to_N <$> b)
      then Return (string_of_list_byte b)
      else Raise UnicodeDecodeError
  | _ => Raise AttributeError
  end.

(** The characters of a [str]: its encoding cut at the lead bytes. *)
Definition utf8_width (b : byte) : nat :=
  let n := Byte.to_N b in
  if (n <? 192)%N then 1 else if (n <? 224)%N then 2
  else if (n <? 240)%N then 3 else 4.

Fixpoint utf8_chars (fuel : nat) (bs : list byte) : list string :=
  match fuel, bs with
  | S k, b :: _ =>
      string_of_list_byte (take (utf8_width b) bs)
      :: utf8_chars k (drop (utf8_width b) bs)
  | _, _ => []
  end.

(** [v[i]] for an int [i]. *)
Definition py_subscript (v : pyval) (i : Z) : outcome pyval :=
  match v with
  | VList xs => py_index xs i
  | VBytes b => b' <~ py_index b i ;;; Return (VInt (Z.of_N (Byte.to_N b')))
  | VStr s =>
      let bs := list_byte_of_string s in
      c <~ py_index (utf8_chars (length bs) bs) i ;;; Return (VStr c)
  | VDict _ => Raise (KeyError (VInt i))
  | VInt _ | VFloat _ => Raise TypeError
  end.

(** [hex(n)] *)
Definition hex (n : Z) : string := HexString.of_Z n.

(** ** [utils]: the primitive readers *)

Definition be_to_Z (bs : list byte) : Z :=
  foldl (λ acc b, acc * 256 + Z.of_N (Byte.to_N b)) 0 bs.

(** [f.read(n)]: the next [n] bytes, or all that remain when fewer do
    (or when [n] is negative). *)
Definition read (n : Z) : M (list byte) :=
  λ f, if decide (n < 0) then Return (f, [])
       else Return (take (Z.to_nat n) f, drop (Z.to_nat n) f).

(** Modelled from the spec: [utils.parse_i1], [parse_i2], [parse_i4] and
    [parse_f4] are imported from a module that is not under src/.  Spec
    4.1: extract unsigned 8/16/32-bit big-endian integers and a 32-bit
    IEEE-754 float, advancing the cursor by the exact width consumed;
    fails with [TruncatedInput] when fewer bytes remain than requested. *)
Definition parse_uint (w : nat) : M Z :=
  λ f, if decide (length f < w)%nat then Raise TruncatedInput
       else Return (be_to_Z (take w f), drop w f).

Definition parse_i1 : M Z := parse_uint 1.
Definition parse_i2 : M Z := parse_uint 2.
Definition parse_i4 : M Z := parse_uint 4.
(** The float is kept as its 32-bit pattern. *)
Definition parse_f4 : M pyval := bits <~ parse_uint 4 ;; ret (VFloat bits).

(** ** [parse_flags] *)

Definition parse_flags (value : Z) (flags : list (string * Z)) : list string :=
  (filter (λ nm, Z.land value nm.2 ≠ 0) flags).*1.

(** The flag decoder in the words of the specification: the names, in
    table order, of the pairs whose mask has one of the sixteen bits that
    is set in [value]. *)
Definition mask_bit_set (value mask : Z) : bool :=
  existsb (λ k, Z.testbit mask (Z.of_nat k) && Z.testbit value (Z.of_nat k)) (seq 0 16).

Fixpoint flag_names_by_bit (value : Z) (flags : list (string * Z)) : list string :=
  match flags with
  | [] => []
  | (name, mask) :: flags' =>
      if mask_bit_set value mask
      then name :: flag_names_by_bit value flags'
      else flag_names_by_bit value flags'
  end.

(** ** [jvmconsts]: the tag enumeration and the flag tables *)

(** The members of the enumeration [Constant] that [parse_constant_pool]
    names; [CONSTANT_other] stands for any further member. *)
Inductive Constant :=
| CONSTANT_Methodref
| CONSTANT_Class
| CONSTANT_NameAndType
| CONSTANT_Utf8
| CONSTANT_Fieldref
| CONSTANT_String
| CONSTANT_InvokeDynamic
| CONSTANT_MethodHandle
| CONSTANT_Float
| CONSTANT_Integer
| CONSTANT_other (name : string).

(** [constant_tag.name] *)
Definition Constant_name (c : Constant) : string :=
  match c with
  | CONSTANT_Methodref => "CONSTANT_Methodref"
  | CONSTANT_Class => "CONSTANT_Class"
  | CONSTANT_NameAndType => "CONSTANT_NameAndType"
  | CONSTANT_Utf8 => "CONSTANT_Utf8"
  | CONSTANT_Fieldref => "CONSTANT_Fieldref"
  | CONSTANT_String => "CONSTANT_String"
  | CONSTANT_InvokeDynamic => "CONSTANT_InvokeDynamic"
  | CONSTANT_MethodHandle => "CONSTANT_MethodHandle"
  | CONSTANT_Float => "CONSTANT_Float"
  | CONSTANT_Integer => "CONSTANT_Integer"
  | CONSTANT_other name => name
  end.

(** The module [jvmconsts] is not under src/ and the specification gives
    no numeric value of it, so the decoder takes its contents as a
    parameter: [Constant_value tag] is the member [Constant(tag)] when the
    enumeration has one with that value ([None] stands for [ValueError]),
    and the two flag tables are lists of (name, mask) pairs. *)
Class jvmconsts := {
  Constant_value : Z → option Constant;
  CLASS_ACCESS_FLAGS : list (string * Z);
  METHOD_ACCESS_FLAGS : list (string * Z);
}.

(** Modelled from the spec: the contents of [jvmconsts], which is not
    under src/.  The specification names the ten constant kinds and says
    the input is the JVM class-file format; the values below are that
    format's tag numbers and access-flag masks.  Used for the concrete
    inputs only: every general statement holds for all tables. *)
Definition jvms_Constant_value (tag : Z) : option Constant :=
  if decide (tag = 1) then Some CONSTANT_Utf8
  else if decide (tag = 3) then Some CONSTANT_Integer
  else if decide (tag = 4) then Some CONSTANT_Float
  else if decide (tag = 5) then Some (CONSTANT_other "CONSTANT_Long")
  else if decide (tag = 6) then Some (CONSTANT_other "CONSTANT_Double")
  else if decide (tag = 7) then Some CONSTANT_Class
  else if decide (tag = 8) then Some CONSTANT_String
  else if decide (tag = 9) then Some CONSTANT_Fieldref
  else if decide (tag = 10) then Some CONSTANT_Methodref
  else if decide (tag = 11) then Some (CONSTANT_other "CONSTANT_InterfaceMethodref")
  else if decide (tag = 12) then Some CONSTANT_NameAndType
  else if decide (tag = 15) then Some CONSTANT_MethodHandle
  else if decide (tag = 16) then Some (CONSTANT_other "CONSTANT_MethodType")
  else if decide (tag = 18) then Some CONSTANT_InvokeDynamic
  else None.

Definition jvms : jvmconsts := {|
  Constant_value := jvms_Constant_value;
  CLASS_ACCESS_FLAGS :=
    [("ACC_PUBLIC", 0x0001); ("ACC_FINAL", 0x0010); ("ACC_SUPER", 0x0020);
     ("ACC_INTERFACE", 0x0200); ("ACC_ABSTRACT", 0x0400);
     ("ACC_SYNTHETIC", 0x1000); ("ACC_ANNOTATION", 0x2000);
     ("ACC_ENUM", 0x4000)]%string;
  METHOD_ACCESS_FLAGS :=
    [("ACC_PUBLIC", 0x0001); ("ACC_PRIVATE", 0x0002);
     ("ACC_PROTECTED", 0x0004); ("ACC_STATIC", 0x0008);
     ("ACC_FINAL", 0x0010); ("ACC_SYNCHRONIZED", 0x0020);
     ("ACC_BRIDGE", 0x0040); ("ACC_VARARGS", 0x0080);
     ("ACC_NATIVE", 0x0100); ("ACC_ABSTRACT", 0x0400);
     ("ACC_STRICT", 0x0800); ("ACC_SYNTHETIC", 0x1000)]%string;
|}.

(** ** The class and the lookups into its constant pool *)

Record JVMClass := {
  version : Z * Z;
  constant_pool : list pyval;
  methods : option (list pyval);
  attributes : option (list pyval);
  access_flags : list string;
  this_class : Z;
  super_class : Z;
}.

Inductive AttributeInfoName :=
| BOOTSTRAP_METHOD
| INNER_CLASSES
| SOURCE_FILE
| CODE
| LINE_NUMBER_TABLE.

(** [member.value] *)
Definition AttributeInfoName_value (a : AttributeInfoName) : list byte :=
  list_byte_of_string
    match a with
    | BOOTSTRAP_METHOD => "BootstrapMethods"
    | INNER_CLASSES => "InnerClasses"
    | SOURCE_FILE => "SourceFile"
    | CODE => "Code"
    | LINE_NUMBER_TABLE => "LineNumberTable"
    end.

#[global] Instance byte_eq_dec : EqDecision byte := Byte.byte_eq_dec.

(** [v == bs] for a bytes literal [bs]. *)
Definition eq_bytes (v : pyval) (bs : list byte) : bool :=
  match v with
  | VBytes b => bool_decide (b = bs)
  | _ => false
  end.

(** [AttributeInfoName(v)]: the member whose value is [v], else
    [ValueError]. *)
Definition AttributeInfoName_of (v : pyval) : outcome AttributeInfoName :=
  if eq_bytes v (AttributeInfoName_value BOOTSTRAP_METHOD) then Return BOOTSTRAP_METHOD
  else if eq_bytes v (AttributeInfoName_value INNER_CLASSES) then Return INNER_CLASSES
  else if eq_bytes v (AttributeInfoName_value SOURCE_FILE) then Return SOURCE_FILE
  else if eq_bytes v (AttributeInfoName_value CODE) then Return CODE
  else if eq_bytes v (AttributeInfoName_value LINE_NUMBER_TABLE) then Return LINE_NUMBER_TABLE
  else Raise ValueError.

Definition get_name_of_class (clazz : JVMClass) (class_index : Z) : outcome string :=
  c <~ py_index (constant_pool clazz) (class_index - 1) ;;;
  name_index <~ py_item c "name_index" ;;;
  u <~ py_index_pred (constant_pool clazz) name_index ;;;
  b <~ py_item u "bytes" ;;;
  decode_utf8 b.

Definition get_name_of_member (clazz : JVMClass) (name_and_type_index : Z) : outcome string :=
  c <~ py_index (constant_pool clazz) (name_and_type_index - 1) ;;;
  name_index <~ py_item c "name_index" ;;;
  u <~ py_index_pred (constant_pool clazz) name_index ;;;
  b <~ py_item u "bytes" ;;;
  decode_utf8 b.

Definition from_cp (clazz : JVMClass) (index : Z) : outcome pyval :=
  if decide (index > 0) then py_index (constant_pool clazz) (index - 1)
  else Raise (AssertionError "Constant pool index must be positive").

(** The loop of [from_bsm] over [clazz.attributes]. *)
Fixpoint from_bsm_scan (attrs : list pyval) (index : Z) : outcome pyval :=
  match attrs with
  | [] => Raise (RuntimeError "Bootstrap method not found")
  | attr :: attrs' =>
      name <~ py_item attr "_name" ;;;
      if eq_bytes name (AttributeInfoName_value BOOTSTRAP_METHOD) then
        info <~ py_item attr "info" ;;;
        bootstrap_methods <~ py_item info "bootstrap_methods" ;;;
        py_subscript bootstrap_methods index
      else from_bsm_scan attrs' index
  end.

Definition from_bsm (clazz : JVMClass) (index : Z) : outcome pyval :=
  if decide (index >= 0) then
    match attributes clazz with
    | Some attrs => from_bsm_scan attrs index
    | None => Raise (AssertionError "Bootstrap method index must be non-negative")
    end
  else Raise (AssertionError "Bootstrap method index must be non-negative").

(** The list comprehension of [find_methods_by_name] and of
    [find_attributes_by_name]:
    [[x for x in items if clazz.constant_pool[x[key] - 1]['bytes'] == name]]. *)
Fixpoint filter_by_pool_name (pool : list pyval) (key : string) (name : list byte)
    (items : list pyval) : outcome (list pyval) :=
  match items with
  | [] => Return []
  | x :: items' =>
      index <~ py_item x key ;;;
      entry <~ py_index_pred pool index ;;;
      b <~ py_item entry "bytes" ;;;
      kept <~ filter_by_pool_name pool key name items' ;;;
      Return (if eq_bytes b name then x :: kept else kept)
  end.

Definition find_methods_by_name (clazz : JVMClass) (name : list byte)
    : outcome (list pyval) :=
  match methods clazz with
  | Some ms => filter_by_pool_name (constant_pool clazz) "name_index" name ms
  | None => Raise (AssertionError "Class methods not parsed")
  end.

Definition find_attributes_by_name (clazz : JVMClass) (name : list byte)
    : outcome (list pyval) :=
  match attributes clazz with
  | Some attrs =>
      filter_by_pool_name (constant_pool clazz) "attribute_name_index" name attrs
  | None => Raise (AssertionError "Class attributes not parsed")
  end.

(** ** The decoder *)

Abbreviation dict := (gmap string pyval).

Section decoder.
Context {consts : jvmconsts}.

(** One turn of the loop of [parse_constant_pool]: the entry read. *)
Definition parse_cp_info : M pyval :=
  tag_byte <~ parse_i1 ;;
  match Constant_value tag_byte with
  | None =>
      raise (NotImplementedError
               ("Unknown constant tag " +:+ pretty tag_byte +:+ " in class file."))
  | Some constant_tag =>
      cp_info <~
        match constant_tag with
        | CONSTANT_Methodref =>
            class_index <~ parse_i2 ;;
            name_and_type_index <~ parse_i2 ;;
            ret (<["name_and_type_index" := VInt name_and_type_index]>
                   (<["class_index" := VInt class_index]> (∅ : dict)))
        | CONSTANT_Class =>
            name_index <~ parse_i2 ;;
            ret (<["name_index" := VInt name_index]> (∅ : dict))
        | CONSTANT_NameAndType =>
            name_index <~ parse_i2 ;;
            descriptor_index <~ parse_i2 ;;
            ret (<["descriptor_index" := VInt descriptor_index]>
                   (<["name_index" := VInt name_index]> (∅ : dict)))
        | CONSTANT_Utf8 =>
            length <~ parse_i2 ;;
            bytes <~ read length ;;
            ret (<["bytes" := VBytes bytes]> (∅ : dict))
        | CONSTANT_Fieldref =>
            class_index <~ parse_i2 ;;
            name_and_type_index <~ parse_i2 ;;
            ret (<["name_and_type_index" := VInt name_and_type_index]>
                   (<["class_index" := VInt class_index]> (∅ : dict)))
        | CONSTANT_String =>
            string_index <~ parse_i2 ;;
            ret (<["string_index" := VInt string_index]> (∅ : dict))
        | CONSTANT_InvokeDynamic =>
            bootstrap_method_attr_index <~ parse_i2 ;;
            name_and_type_index <~ parse_i2 ;;
            ret (<["name_and_type_index" := VInt name_and_type_index]>
                   (<["bootstrap_method_attr_index" := VInt bootstrap_method_attr_index]>
                      (∅ : dict)))
        | CONSTANT_MethodHandle =>
            reference_kind <~ parse_i1 ;;
            reference_index <~ parse_i2 ;;
            ret (<["reference_index" := VInt reference_index]>
                   (<["reference_kind" := VInt reference_kind]> (∅ : dict)))
        | CONSTANT_Float =>
            bytes <~ parse_f4 ;;
            ret (<["bytes" := bytes]> (∅ : dict))
        | CONSTANT_Integer =>
            bytes <~ parse_i4 ;;
            ret (<["bytes" := VInt bytes]> (∅ : dict))
        | CONSTANT_other _ =>
            raise (NotImplementedError
                     ("Unexpected constant tag " +:+ pretty tag_byte +:+ " in class file."))
        end ;;
      ret (VDict (<["tag" := VStr (Constant_name constant_tag)]> cp_info))
  end.

Definition parse_constant_pool (constant_pool_count : Z) : M (list pyval) :=
  for_range (constant_pool_count - 1)
    (λ constant_pool, cp_info <~ parse_cp_info ;; ret (constant_pool ++ [cp_info]))
    [].

Definition parse_interfaces (interfaces_count : Z) : M (list pyval) :=
  for_range interfaces_count
    (λ _, raise (NotImplementedError "We don't support interfaces")) [].

Definition parse_fields (interfaces_count : Z) : M (list pyval) :=
  for_range interfaces_count
    (λ _, raise (NotImplementedError "We don't support interfaces")) [].

Definition parse_attribute_info_BootstrapMethods (clazz : JVMClass) : M pyval :=
  num_bootstrap_methods <~ parse_i2 ;;
  bootstrap_methods <~
    for_range num_bootstrap_methods
      (λ bootstrap_methods,
         bootstrap_method_ref <~ parse_i2 ;;
         num_bootstrap_arguments <~ parse_i2 ;;
         bootstrap_arguments <~
           for_range num_bootstrap_arguments
             (λ bootstrap_arguments,
                a <~ parse_i2 ;; ret (bootstrap_arguments ++ [VInt a])) [] ;;
         ret (bootstrap_methods ++
              [VDict (<["bootstrap_arguments" := VList bootstrap_arguments]>
                        (<["num_bootstrap_arguments" := VInt num_bootstrap_arguments]>
                           (<["bootstrap_method_ref" := VInt bootstrap_method_ref]>
                              (∅ : dict))))])) [] ;;
  ret (VDict (<["bootstrap_methods" := VList bootstrap_methods]>
                (<["num_bootstrap_methods" := VInt num_bootstrap_methods]> (∅ : dict)))).

Definition parse_attribute_info_SourceFile (clazz : JVMClass) : M pyval :=
  sourcefile_index <~ parse_i2 ;;
  ret (VDict (<["sourcefile_index" := VInt sourcefile_index]> (∅ : dict))).

Definition parse_attribute_info_InnerClasses (clazz : JVMClass) : M pyval :=
  number_of_classes <~ parse_i2 ;;
  classes <~
    for_range number_of_classes
      (λ classes,
         inner_class_info_index <~ parse_i2 ;;
         outer_class_info_index <~ parse_i2 ;;
         inner_name_index <~ parse_i2 ;;
         inner_class_access_flags <~ parse_i2 ;;
         ret (classes ++
              [VDict (<["inner_class_access_flags" := VInt inner_class_access_flags]>
                        (<["inner_name_index" := VInt inner_name_index]>
                           (<["outer_class_info_index" := VInt outer_class_info_index]>
                              (<["inner_class_info_index" := VInt inner_class_info_index]>
                                 (∅ : dict)))))])) [] ;;
  ret (VDict (<["classes" := VList classes]>
                (<["number_of_classes" := VInt number_of_classes]> (∅ : dict)))).

Definition parse_attribute_info_LineNumberTable (clazz : JVMClass) : M pyval :=
  line_number_table_length <~ parse_i2 ;;
  table <~
    for_range line_number_table_length
      (λ table,
         start_pc <~ parse_i2 ;;
         line_number <~ parse_i2 ;;
         ret (table ++
              [VDict (<["line_number" := VInt line_number]>
                        (<["start_pc" := VInt start_pc]> (∅ : dict)))])) [] ;;
  ret (VDict (<["line_number_table" := VList table]>
                (<["line_number_table_length" := VInt line_number_table_length]>
                   (∅ : dict)))).

(** The dict that [parse_attribute_info_Code] returns. *)
Definition code_dict (max_stack max_locals : Z) (code : list byte)
    (attributes : list pyval) : pyval :=
  VDict (<["attributes" := VList attributes]>
           (<["code" := VBytes code]>
              (<["max_locals" := VInt max_locals]>
                 (<["max_stack" := VInt max_stack]> (∅ : dict))))).

(** [parse_attributes], [parse_attribute_info] and
    [parse_attribute_info_Code] call one another.  The three are written
    here over [rec], the [parse_attributes] that the Code sub-parser
    calls; [parse_attributes_fuel] closes the knot. *)
Section knot.
Variable rec : JVMClass → Z → M (list pyval).

Definition parse_attribute_info_Code_with (clazz : JVMClass) : M pyval :=
  max_stack <~ parse_i2 ;;
  max_locals <~ parse_i2 ;;
  code_length <~ parse_i4 ;;
  code <~ read code_length ;;
  exception_table_length <~ parse_i2 ;;
  _ <~ for_range exception_table_length
         (λ _ : unit, raise (NotImplementedError "We don't support exception tables")) () ;;
  attributes_count <~ parse_i2 ;;
  attributes <~ rec clazz attributes_count ;;
  ret (VDict (<["attributes" := VList attributes]>
                (<["code" := VBytes code]>
                   (<["max_locals" := VInt max_locals]>
                      (<["max_stack" := VInt max_stack]> (∅ : dict)))))).

(** The dispatch of [parse_attribute_info]: the sub-parser that the
    [match] selects.  The enumeration has five members, so the [case _]
    of the source is never taken. *)
Definition sub_parser_with (clazz : JVMClass) (attr_info_type : AttributeInfoName)
    : M pyval :=
  match attr_info_type with
  | BOOTSTRAP_METHOD => parse_attribute_info_BootstrapMethods clazz
  | SOURCE_FILE => parse_attribute_info_SourceFile clazz
  | INNER_CLASSES => parse_attribute_info_InnerClasses clazz
  | CODE => parse_attribute_info_Code_with clazz
  | LINE_NUMBER_TABLE => parse_attribute_info_LineNumberTable clazz
  end.

(** [attr_info_stream = io.BytesIO(info_bytes)] is a stream of its own:
    the sub-parser reads it, and what it leaves unread is dropped with
    the stream. *)
Definition parse_attribute_info_with (clazz : JVMClass) (attr_name : pyval)
    (info_bytes : list byte) : outcome pyval :=
  attr_info_type <~ AttributeInfoName_of attr_name ;;;
  on_bytes (sub_parser_with clazz attr_info_type) info_bytes.

(** One turn of the loop of [parse_attributes]: the attribute read. *)
Definition parse_attribute_with (clazz : JVMClass) : M pyval :=
  attribute_name_index <~ parse_i2 ;;
  cp_info <~ lift (from_cp clazz attribute_name_index) ;;
  _name <~ lift (py_item cp_info "bytes") ;;
  attribute_length <~ parse_i4 ;;
  info_bytes <~ read attribute_length ;;
  info <~ lift (parse_attribute_info_with clazz _name info_bytes) ;;
  ret (VDict (<["info" := info]>
                (<["_name" := _name]>
                   (<["attribute_name_index" := VInt attribute_name_index]>
                      (∅ : dict))))).

(** The dict that one turn of the loop appends. *)
Definition attribute_dict (attribute_name_index : Z) (_name info : pyval) : pyval :=
  VDict (<["info" := info]>
           (<["_name" := _name]>
              (<["attribute_name_index" := VInt attribute_name_index]> (∅ : dict)))).

Definition parse_attributes_with (clazz : JVMClass) (count : Z) : M (list pyval) :=
  for_range count
    (λ attributes,
       attribute <~ parse_attribute_with clazz ;; ret (attributes ++ [attribute]))
    [].

End knot.

Fixpoint parse_attributes_fuel (fuel : nat) (clazz : JVMClass) (count : Z)
    : M (list pyval) :=
  match fuel with
  | O => λ _, OutOfFuel
  | S fuel' => parse_attributes_with (parse_attributes_fuel fuel') clazz count
  end.

(** More fuel than the stream has bytes is enough ([fuel_irrelevant]). *)
Definition parse_attributes (clazz : JVMClass) (count : Z) : M (list pyval) :=
  λ f, parse_attributes_fuel (S (length f)) clazz count f.

Definition parse_attribute (clazz : JVMClass) : M pyval :=
  parse_attribute_with parse_attributes clazz.

Definition parse_attribute_info (clazz : JVMClass) (attr_name : pyval)
    (info_bytes : list byte) : outcome pyval :=
  parse_attribute_info_with parse_attributes clazz attr_name info_bytes.

Definition parse_attribute_info_Code (clazz : JVMClass) : M pyval :=
  parse_attribute_info_Code_with parse_attributes clazz.

Definition sub_parser (clazz : JVMClass) (attr_info_type : AttributeInfoName)
    : M pyval :=
  sub_parser_with parse_attributes clazz attr_info_type.

(** One turn of the methods loop of [parse_class_file]. *)
Definition parse_method (clazz : JVMClass) : M pyval :=
  flags <~ parse_i2 ;;
  name_index <~ parse_i2 ;;
  descriptor_index <~ parse_i2 ;;
  attributes_count <~ parse_i2 ;;
  attributes <~ parse_attributes clazz attributes_count ;;
  ret (VDict (<["attributes" := VList attributes]>
                (<["descriptor_index" := VInt descriptor_index]>
                   (<["name_index" := VInt name_index]>
                      (<["access_flags" := VList (VStr <$> parse_flags flags METHOD_ACCESS_FLAGS)]>
                         (∅ : dict)))))).

(** [parse_class_file], on the content of the file at [file_path]. *)
Definition parse_class_file_stream : M JVMClass :=
  magic <~ parse_i4 ;;
  if decide (hex magic ≠ "0xcafebabe") then
    raise (RuntimeError "Not a Java file: invalid magic number")
  else
  v_minor <~ parse_i2 ;;
  v_major <~ parse_i2 ;;
  constant_pool_count <~ parse_i2 ;;
  constant_pool <~ parse_constant_pool constant_pool_count ;;
  flags <~ parse_i2 ;;
  this_class <~ parse_i2 ;;
  super_class <~ parse_i2 ;;
  interfaces_count <~ parse_i2 ;;
  interfaces <~ parse_interfaces interfaces_count ;;
  fields_count <~ parse_i2 ;;
  fields <~ parse_fields fields_count ;;
  let clazz := {| version := (v_major, v_minor);
                  constant_pool := constant_pool;
                  methods := None;
                  attributes := None;
                  access_flags := parse_flags flags CLASS_ACCESS_FLAGS;
                  this_class := this_class;
                  super_class := super_class |} in
  methods_count <~ parse_i2 ;;
  methods <~ for_range methods_count
               (λ methods, method <~ parse_method clazz ;; ret (methods ++ [method])) [] ;;
  let clazz := {| version := (v_major, v_minor);
                  constant_pool := constant_pool;
                  methods := Some methods;
                  attributes := None;
                  access_flags := parse_flags flags CLASS_ACCESS_FLAGS;
                  this_class := this_class;
                  super_class := super_class |} in
  attributes_count <~ parse_i2 ;;
  attributes <~ parse_attributes clazz attributes_count ;;
  ret {| version := (v_major, v_minor);
         constant_pool := constant_pool;
         methods := Some methods;
         attributes := Some attributes;
         access_flags := parse_flags flags CLASS_ACCESS_FLAGS;
         this_class := this_class;
         super_class := super_class |}.

Definition parse_class_file (file : list byte) : outcome JVMClass :=
  on_bytes parse_class_file_stream file.

(** The part of [parse_class_file] that follows the constant pool, named
    for the statements below ([parse_class_file_stream_header]). *)
Definition after_constant_pool (v_major v_minor : Z) (constant_pool : list pyval)
    : M JVMClass :=
  flags <~ parse_i2 ;;
  this_class <~ parse_i2 ;;
  super_class <~ parse_i2 ;;
  interfaces_count <~ parse_i2 ;;
  interfaces <~ parse_interfaces interfaces_count ;;
  fields_count <~ parse_i2 ;;
  fields <~ parse_fields fields_count ;;
  let clazz := {| version := (v_major, v_minor);
                  constant_pool := constant_pool;
                  methods := None;
                  attributes := None;
                  access_flags := parse_flags flags CLASS_ACCESS_FLAGS;
                  this_class := this_class;
                  super_class := super_class |} in
  methods_count <~ parse_i2 ;;
  methods <~ for_range methods_count (appending (parse_method clazz)) [] ;;
  let clazz := {| version := (v_major, v_minor);
                  constant_pool := constant_pool;
                  methods := Some methods;
                  attributes := None;
                  access_flags := parse_flags flags CLASS_ACCESS_FLAGS;
                  this_class := this_class;
                  super_class := super_class |} in
  attributes_count <~ parse_i2 ;;
  attributes <~ parse_attributes clazz attributes_count ;;
  ret {| version := (v_major, v_minor);
         constant_pool := constant_pool;
         methods := Some methods;
         attributes := Some attributes;
         access_flags := parse_flags flags CLASS_ACCESS_FLAGS;
         this_class := this_class;
         super_class := super_class |}.

End decoder.

(** ** The vocabulary of the statements *)

(** [shrinks d m]: when [m] returns, it has consumed at least [d] bytes
    and what is left is a suffix no longer than the stream it started
    from. *)
Definition shrinks {A} (d : nat) (m : M A) : Prop :=
  ∀ f a f', m f = Return (a, f') → (length f' + d ≤ length f)%nat.

(** [total m]: [m] never runs out of fuel. *)
Definition total {A} (m : M A) : Prop := ∀ f, m f ≠ OutOfFuel.

Definition agree_below (n : nat) (r1 r2 : JVMClass → Z → M (list pyval)) : Prop :=
  ∀ c k h, (length h < n)%nat → r1 c k h = r2 c k h.

(** A tag byte is supported when the enumeration has a member for it
    and that member is one of the ten that the decoder has a layout
    for. *)
Definition supported_tag {consts : jvmconsts} (tag : Z) : Prop :=
  match Constant_value tag with
  | None | Some (CONSTANT_other _) => False
  | Some _ => True
  end.

(** [NotImplementedError] with either of the decoder's two messages
    about a constant tag, each of which carries the tag value. *)
Definition unsupported_constant_tag (tag : Z) (e : exn) : Prop :=
  e = NotImplementedError ("Unknown constant tag " +:+ pretty tag +:+ " in class file.")
  ∨ e = NotImplementedError ("Unexpected constant tag " +:+ pretty tag +:+ " in class file.").

(** The ten bytes before the constant pool. *)
Definition header (m1 m2 M1 M2 k1 k2 : byte) : list byte :=
  [xca; xfe; xba; xbe; m1; m2; M1; M2; k1; k2].

(** A byte that is neither ASCII, nor a continuation byte, nor the first
    byte of an encoding: C0, C1 and F5 to FF. *)
Definition never_in_utf8 (x : N) : Prop := (192 ≤ x ≤ 193 ∨ 245 ≤ x)%N.

(** What holds of an entry that the pool decoder returns: it is a dict
    that names its kind under [tag], one of the ten kinds with a layout,
    and its [name_index] and [bytes] fields are those of its kind. *)
Definition cp_info_fields_ok (c : Constant) (d : dict) : Prop :=
  match c with
  | CONSTANT_Utf8 =>
      (∃ b, d !! "bytes" = Some (VBytes b) ∧ Z.of_nat (length b) < 65536)
      ∧ d !! "name_index" = None
  | CONSTANT_Class | CONSTANT_NameAndType =>
      (∃ n, d !! "name_index" = Some (VInt n) ∧ 0 ≤ n < 65536)
      ∧ d !! "bytes" = None
  | CONSTANT_Integer =>
      (∃ n, d !! "bytes" = Some (VInt n)) ∧ d !! "name_index" = None
  | CONSTANT_Float =>
      (∃ n, d !! "bytes" = Some (VFloat n)) ∧ d !! "name_index" = None
  | CONSTANT_other _ => False
  | _ => d !! "bytes" = None ∧ d !! "name_index" = None
  end.

Definition cp_info_ok (e : pyval) : Prop :=
  ∃ (d : dict) (c : Constant),
    e = VDict d ∧ d !! "tag" = Some (VStr (Constant_name c)) ∧ cp_info_fields_ok c d.

(** ** Concrete inputs *)

(** A pool of two entries: the text Main, and a class named by it. *)
Definition Main_pool : list (list byte * pyval) :=
  [ ([x01; x00; x04] ++ list_byte_of_string "Main",
     VDict (<["tag" := VStr "CONSTANT_Utf8"]>
              (<["bytes" := VBytes (list_byte_of_string "Main")]> ∅)));
    ([x07; x00; x01],
     VDict (<["tag" := VStr "CONSTANT_Class"]> (<["name_index" := VInt 1]> ∅))) ].

(** Access flags, this_class, super_class, and the counts of interfaces,
    fields, methods and attributes, all zero: what follows the pool in a
    class with no members. *)
Definition no_members : list byte :=
  [x00; x21; x00; x02; x00; x00; x00; x00; x00; x00; x00; x00; x00; x00].

Definition Main_class_file : list byte :=
  header x00 x00 x00 x34 x00 x03 ++ concat Main_pool.*1 ++ no_members.

Definition Main_clazz : JVMClass :=
  {| version := (52, 0);
     constant_pool := Main_pool.*2;
     methods := Some [];
     attributes := Some [];
     access_flags := ["ACC_PUBLIC"; "ACC_SUPER"]%string;
     this_class := 2;
     super_class := 0 |}.

(** The same class with a fields count of 1 and one field. *)
Definition field_class_file : list byte :=
  header x00 x00 x00 x34 x00 x03 ++ concat Main_pool.*1
  ++ [x00; x21; x00; x02; x00; x00; x00; x00;
      x00; x01; x00; x02; x00; x01; x00; x01; x00; x00;
      x00; x00; x00; x00].

(** A pool that also holds the attribute name SourceFile, at index 3. *)
Definition SourceFile_pool : list (list byte * pyval) :=
  Main_pool ++
  [ ([x01; x00; x0a] ++ list_byte_of_string "SourceFile",
     VDict (<["tag" := VStr "CONSTANT_Utf8"]>
              (<["bytes" := VBytes (list_byte_of_string "SourceFile")]> ∅))) ].



(** The class while its attributes are being decoded. *)
Definition SourceFile_clazz_in_progress : JVMClass :=
  {| version := (52, 0);
     constant_pool := SourceFile_pool.*2;
     methods := None;
     attributes := None;
     access_flags := ["ACC_PUBLIC"; "ACC_SUPER"]%string;
     this_class := 2;
     super_class := 0 |}.

Definition bootstrap_method_dict (ref : Z) : pyval :=
  VDict (<["bootstrap_arguments" := VList []]>
           (<["num_bootstrap_arguments" := VInt 0]>
              (<["bootstrap_method_ref" := VInt ref]> ∅))).

Definition BootstrapMethods_info (ms : list pyval) : dict :=
  <["bootstrap_methods" := VList ms]>
    (<["num_bootstrap_methods" := VInt (Z.of_nat (length ms))]> ∅).

Definition BootstrapMethods_attr (ms : list pyval) : dict :=
  <["info" := VDict (BootstrapMethods_info ms)]>
    (<["_name" := VBytes (AttributeInfoName_value BOOTSTRAP_METHOD)]>
       (<["attribute_name_index" := VInt 4]> ∅)).

(** A pool that also holds the attribute name BootstrapMethods, at
    index 4. *)
Definition BootstrapMethods_pool : list (list byte * pyval) :=
  SourceFile_pool ++
  [ ([x01; x00; x10] ++ list_byte_of_string "BootstrapMethods",
     VDict (<["tag" := VStr "CONSTANT_Utf8"]>
              (<["bytes" := VBytes (list_byte_of_string "BootstrapMethods")]> ∅))) ].

(** A class file with a SourceFile attribute followed by two
    BootstrapMethods attributes, of two methods and of one. *)
Definition two_bsm_class_file : list byte :=
  header x00 x00 x00 x34 x00 x05 ++ concat BootstrapMethods_pool.*1
  ++ [x00; x21; x00; x02; x00; x00; x00; x00; x00; x00; x00; x00; x00; x03]
  ++ [x00; x03; x00; x00; x00; x02; x00; x01]
  ++ [x00; x04; x00; x00; x00; x0a; x00; x02;
      x00; x05; x00; x00; x00; x06; x00; x00]
  ++ [x00; x04; x00; x00; x00; x06; x00; x01; x00; x07; x00; x00].

(** The class it decodes to ([two_bsm_class_file_decoded]). *)
Definition two_bsm_clazz : JVMClass :=
  {| version := (52, 0);
     constant_pool := BootstrapMethods_pool.*2;
     methods := Some [];
     attributes :=
       Some ([attribute_dict 3 (VBytes (list_byte_of_string "SourceFile"))
                (VDict (<["sourcefile_index" := VInt 1]> ∅))]
             ++ VDict (BootstrapMethods_attr
                         [bootstrap_method_dict 5; bootstrap_method_dict 6])
             :: [VDict (BootstrapMethods_attr [bootstrap_method_dict 7])]);
     access_flags := ["ACC_PUBLIC"; "ACC_SUPER"]%string;
     this_class := 2;
     super_class := 0 |}.

(** The records of the table attributes, as the bytes they are read from
    and the dicts they are decoded to. *)
Definition line_number_bytes (e : (byte * byte) * (byte * byte)) : list byte :=
  [e.1.1; e.1.2; e.2.1; e.2.2].

Definition line_number_dict (e : (byte * byte) * (byte * byte)) : pyval :=
  VDict (<["line_number" := VInt (be_to_Z [e.2.1; e.2.2])]>
           (<["start_pc" := VInt (be_to_Z [e.1.1; e.1.2])]> (∅ : dict))).

Definition inner_class_bytes (e : ((byte * byte) * (byte * byte)) * ((byte * byte) * (byte * byte)))
    : list byte :=
  [e.1.1.1; e.1.1.2; e.1.2.1; e.1.2.2; e.2.1.1; e.2.1.2; e.2.2.1; e.2.2.2].

Definition inner_class_dict (e : ((byte * byte) * (byte * byte)) * ((byte * byte) * (byte * byte)))
    : pyval :=
  VDict (<["inner_class_access_flags" := VInt (be_to_Z [e.2.2.1; e.2.2.2])]>
           (<["inner_name_index" := VInt (be_to_Z [e.2.1.1; e.2.1.2])]>
              (<["outer_class_info_index" := VInt (be_to_Z [e.1.2.1; e.1.2.2])]>
                 (<["inner_class_info_index" := VInt (be_to_Z [e.1.1.1; e.1.1.2])]>
                    (∅ : dict))))).

Definition u2_bytes (a : byte * byte) : list byte := [a.1; a.2].

Definition bootstrap_method_bytes (e : (byte * byte) * (byte * byte) * list (byte * byte))
    : list byte :=
  [e.1.1.1; e.1.1.2; e.1.2.1; e.1.2.2] ++ concat (u2_bytes <$> e.2).

Definition bootstrap_method_entry (e : (byte * byte) * (byte * byte) * list (byte * byte))
    : pyval :=
  VDict (<["bootstrap_arguments" := VList ((λ a, VInt (be_to_Z (u2_bytes a))) <$> e.2)]>
           (<["num_bootstrap_arguments" := VInt (be_to_Z [e.1.2.1; e.1.2.2])]>
              (<["bootstrap_method_ref" := VInt (be_to_Z [e.1.1.1; e.1.1.2])]>
                 (∅ : dict)))).

(** What holds of an attribute that the attribute decoder returns, in a
    class with the pool [pool]: it is the dict of a name index, a name
    and a payload; the name index is a 16-bit number that leads, counted
    from 1, to a pool entry whose [bytes] are the name; and the name is
    the value of a member of [AttributeInfoName]. *)
Definition attribute_ok (pool : list pyval) (a : pyval) : Prop :=
  ∃ (index : Z) (t : AttributeInfoName) (info entry : pyval),
    a = attribute_dict index (VBytes (AttributeInfoName_value t)) info
    ∧ 0 < index < 65536
    ∧ pool !! Z.to_nat (index - 1) = Some entry
    ∧ py_item entry "bytes" = Return (VBytes (AttributeInfoName_value t)).

(** What holds of a method that [parse_class_file] returns. *)
Definition method_ok `{consts : jvmconsts} (pool : list pyval) (m : pyval) : Prop :=
  ∃ (flags name_index descriptor_index : Z) (attrs : list pyval),
    m = VDict (<["attributes" := VList attrs]>
                 (<["descriptor_index" := VInt descriptor_index]>
                    (<["name_index" := VInt name_index]>
                       (<["access_flags" :=
                            VList (VStr <$> parse_flags flags METHOD_ACCESS_FLAGS)]>
                          (∅ : dict)))))
    ∧ 0 ≤ name_index < 65536
    ∧ 0 ≤ descriptor_index < 65536
    ∧ Forall (attribute_ok pool) attrs.

(** [x['_name'] == name], false when [x] has no such field. *)
Definition named (name : list byte) (x : pyval) : bool :=
  match x with
  | VDict d => match d !! "_name" with
               | Some v => eq_bytes v name
               | None => false
               end
  | _ => false
  end.

(** [clazz.constant_pool[x[key] - 1]['bytes']] *)
Definition pool_name (pool : list pyval) (key : string) (x : pyval) : outcome pyval :=
  index <~ py_item x key ;;;
  entry <~ py_index_pred pool index ;;;
  py_item entry "bytes".

(** [pool_name pool key x == name], false when the lookup fails. *)
Definition pool_named (pool : list pyval) (key : string) (name : list byte)
    (x : pyval) : bool :=
  match pool_name pool key x with
  | Return b => eq_bytes b name
  | _ => false
  end.

(** A class file with two methods: the name index of the first leads to
    the text Main, that of the second to the Class entry. *)
Definition two_methods_class_file : list byte :=
  header x00 x00 x00 x34 x00 x03 ++ concat Main_pool.*1
  ++ [x00; x21; x00; x02; x00; x00; x00; x00; x00; x00; x00; x02]
  ++ [x00; x01; x00; x01; x00; x01; x00; x00]
  ++ [x00; x09; x00; x02; x00; x01; x00; x00]
  ++ [x00; x00].

Definition method_dict (flags : list string) (name_index descriptor_index : Z)
    (attrs : list pyval) : pyval :=
  VDict (<["attributes" := VList attrs]>
           (<["descriptor_index" := VInt descriptor_index]>
              (<["name_index" := VInt name_index]>
                 (<["access_flags" := VList (VStr <$> flags)]> (∅ : dict))))).

(** The class it decodes to ([two_methods_class_file_decoded]). *)
Definition two_methods_clazz : JVMClass :=
  {| version := (52, 0);
     constant_pool := Main_pool.*2;
     methods := Some [method_dict ["ACC_PUBLIC"]%string 1 1 [];
                      method_dict ["ACC_PUBLIC"; "ACC_STATIC"]%string 2 1 []];
     attributes := Some [];
     access_flags := ["ACC_PUBLIC"; "ACC_SUPER"]%string;
     this_class := 2;
     super_class := 0 |}.

(** A method without attributes, as the bytes it is read from (access
    flags, name index, descriptor index, and an attribute count of 0) and
    the dict it is decoded to. *)
Definition method_bytes (e : (byte * byte) * (byte * byte) * (byte * byte)) : list byte :=
  [e.1.1.1; e.1.1.2; e.1.2.1; e.1.2.2; e.2.1; e.2.2; x00; x00].

Definition method_entry `{consts : jvmconsts}
    (e : (byte * byte) * (byte * byte) * (byte * byte)) : pyval :=
  method_dict (parse_flags (be_to_Z [e.1.1.1; e.1.1.2]) METHOD_ACCESS_FLAGS)
    (be_to_Z [e.1.2.1; e.1.2.2]) (be_to_Z [e.2.1; e.2.2]) [].

(** A class whose only name holds the bytes C0 80. *)
Definition nul_name_clazz : JVMClass :=
  {| version := (52, 0);
     constant_pool :=
       [VDict (<["tag" := VStr "CONSTANT_Utf8"]> (<["bytes" := VBytes [xc0; x80]]> ∅));
        VDict (<["tag" := VStr "CONSTANT_Class"]> (<["name_index" := VInt 1]> ∅))];
     methods := Some [];
     attributes := Some [];
     access_flags := [];
     this_class := 2;
     super_class := 0 |}.

(** * Properties *)

(** ** The stream monad *)

Lemma shrinks_weaken {A} d d' (m : M A) :
  (d' ≤ d)%nat → shrinks d m → shrinks d' m.
Proof. intros Hd Hm f a f' E. specialize (Hm f a f' E). lia. Qed.

Lemma shrinks_ret {A} (a : A) : shrinks 0 (ret a).
Proof. intros f b f' [= _ <-]. lia. Qed.

Lemma shrinks_raise {A} d e : shrinks d (@raise A e).
Proof. intros f b f' [=]. Qed.

Lemma shrinks_lift {A} (r : outcome A) : shrinks 0 (lift r).
Proof. intros f a f'. unfold lift. destruct r; intros [=]; subst. lia. Qed.

Lemma shrinks_parse_uint w : shrinks w (parse_uint w).
Proof.
  intros f a f'. unfold parse_uint. case_decide; intros [=]; subst.
  rewrite length_drop. lia.
Qed.

Lemma shrinks_read n : shrinks 0 (read n).
Proof.
  intros f a f'. unfold read. case_decide; intros [=]; subst; simpl; [lia|].
  rewrite length_drop. lia.
Qed.

Lemma shrinks_bind {A B} d1 d2 (m : M A) (k : A → M B) :
  shrinks d1 m → (∀ a, shrinks d2 (k a)) → shrinks (d1 + d2) (bind m k).
Proof.
  intros Hm Hk f b f'. unfold bind.
  destruct (m f) as [[a g]| |] eqn:E; try discriminate.
  intros E'. specialize (Hm _ _ _ E). specialize (Hk _ _ _ _ E'). lia.
Qed.

Lemma shrinks_iterM {S} n (body : S → M S) s :
  (∀ s, shrinks 0 (body s)) → shrinks 0 (iterM n body s).
Proof.
  intros Hb. revert s. induction n as [|n IH]; intros s; simpl.
  - apply shrinks_ret.
  - apply (shrinks_bind 0 0); auto.
Qed.

Lemma total_ret {A} (a : A) : total (ret a).
Proof. intros f. discriminate. Qed.

Lemma total_raise {A} e : total (@raise A e).
Proof. intros f. discriminate. Qed.

Lemma total_lift {A} (r : outcome A) : r ≠ OutOfFuel → total (lift r).
Proof. intros Hr f. unfold lift. destruct r; congruence. Qed.

Lemma total_parse_uint w : total (parse_uint w).
Proof. intros f. unfold parse_uint. case_decide; discriminate. Qed.

Lemma total_read n : total (read n).
Proof. intros f. unfold read. case_decide; discriminate. Qed.

Lemma total_bind {A B} (m : M A) (k : A → M B) :
  total m → (∀ a, total (k a)) → total (bind m k).
Proof.
  intros Hm Hk f. unfold bind. specialize (Hm f).
  destruct (m f) as [[a g]| |]; [apply Hk|congruence..].
Qed.

Lemma total_iterM {S} n (body : S → M S) s :
  (∀ s, total (body s)) → total (iterM n body s).
Proof.
  intros Hb. revert s. induction n as [|n IH]; intros s; simpl.
  - apply total_ret.
  - apply total_bind; auto.
Qed.

Lemma on_bytes_total {A} (m : M A) bs : total m → on_bytes m bs ≠ OutOfFuel.
Proof.
  intros Hm. unfold on_bytes. specialize (Hm bs).
  destruct (m bs) as [[a g]| |]; congruence.
Qed.

(** Two continuations that agree on what [m] can leave give the same
    [bind]. *)
Lemma bind_local {A B} d (m : M A) (k1 k2 : A → M B) f :
  shrinks d m →
  (∀ a f', (length f' + d ≤ length f)%nat → k1 a f' = k2 a f') →
  bind m k1 f = bind m k2 f.
Proof.
  intros Hm Hk. unfold bind.
  destruct (m f) as [[a g]| |] eqn:E; try reflexivity.
  apply Hk. eapply Hm, E.
Qed.

Lemma iterM_local {S} n (body1 body2 : S → M S) s f :
  (∀ s, shrinks 0 (body1 s)) →
  (∀ s g, (length g ≤ length f)%nat → body1 s g = body2 s g) →
  iterM n body1 s f = iterM n body2 s f.
Proof.
  intros Hs. revert s f. induction n as [|n IH]; intros s f Hb; simpl; [done|].
  unfold bind. rewrite <- Hb by lia.
  destruct (body1 s f) as [[a g]| |] eqn:E; try reflexivity.
  apply IH. intros s' g' Hg. apply Hb.
  specialize (Hs _ _ _ _ E). lia.
Qed.

Create HintDb stream.
#[local] Hint Resolve shrinks_ret shrinks_lift shrinks_read shrinks_raise
  total_ret total_raise total_parse_uint total_read : stream.

Lemma shrinks_parse_i1 : shrinks 1 parse_i1.
Proof. apply shrinks_parse_uint. Qed.
Lemma shrinks_parse_i2 : shrinks 2 parse_i2.
Proof. apply shrinks_parse_uint. Qed.
Lemma shrinks_parse_i4 : shrinks 4 parse_i4.
Proof. apply shrinks_parse_uint. Qed.

(** ** The primitive readers on a stream that starts with the field *)

Lemma parse_uint_app w (bs rest : list byte) :
  length bs = w → parse_uint w (bs ++ rest) = Return (be_to_Z bs, rest).
Proof.
  intros <-. unfold parse_uint. rewrite length_app.
  case_decide; [lia|]. by rewrite take_app_length, drop_app_length.
Qed.


Lemma read_app n (bs rest : list byte) :
  Z.of_nat (length bs) = n → read n (bs ++ rest) = Return (bs, rest).
Proof.
  intros <-. unfold read. case_decide; [lia|].
  by rewrite Nat2Z.id, take_app_length, drop_app_length.
Qed.


Lemma be_to_Z_bounds (bs : list byte) : 0 ≤ be_to_Z bs < 256 ^ Z.of_nat (length bs).
Proof.
  unfold be_to_Z. induction bs as [|b bs IH] using rev_ind; simpl; [lia|].
  rewrite foldl_app, length_app, Nat2Z.inj_add, Z.pow_add_r by lia. simpl.
  pose proof (Byte.to_N_bounded b). lia.
Qed.

Lemma read_Return n (f bs f' : list byte) :
  read n f = Return (bs, f') → f = bs ++ f'.
Proof.
  unfold read. case_decide; intros [= <- <-].
  - by rewrite app_nil_r.
  - by rewrite take_drop.
Qed.

Lemma bind_local_eq {A B} (m : M A) (k1 k2 : A → M B) f :
  (∀ a f', m f = Return (a, f') → k1 a f' = k2 a f') →
  bind m k1 f = bind m k2 f.
Proof.
  intros Hk. unfold bind.
  destruct (m f) as [[a g]| |] eqn:E; try reflexivity. by apply Hk.
Qed.

Lemma shrinks0_parse_uint w : shrinks 0 (parse_uint w).
Proof. eapply shrinks_weaken, shrinks_parse_uint. lia. Qed.

Lemma shrinks0_bind {A B} (m : M A) (k : A → M B) :
  shrinks 0 m → (∀ a, shrinks 0 (k a)) → shrinks 0 (bind m k).
Proof. apply (shrinks_bind 0 0). Qed.

#[local] Hint Resolve shrinks0_parse_uint : stream.

Lemma py_index_total {A} (l : list A) i : py_index l i ≠ OutOfFuel.
Proof. unfold py_index. repeat case_decide; try case_match; discriminate. Qed.

Lemma py_item_total v key : py_item v key ≠ OutOfFuel.
Proof. unfold py_item. repeat case_match; discriminate. Qed.

Lemma from_cp_total clazz index : from_cp clazz index ≠ OutOfFuel.
Proof. unfold from_cp. case_decide; [apply py_index_total|discriminate]. Qed.

Lemma AttributeInfoName_of_total v : AttributeInfoName_of v ≠ OutOfFuel.
Proof. unfold AttributeInfoName_of. repeat case_match; discriminate. Qed.

(** ** Fuel: the attribute decoder is a total function of the stream *)

Ltac solve_total :=
  repeat first
    [ apply total_ret | apply total_raise | apply total_parse_uint
    | apply total_read | apply total_iterM | progress intros
    | apply total_bind ].

Section fuel.

Tactic Notation "local_step" uconstr(lem) :=
  eapply bind_local; [apply lem|]; intros ? ? ?.

Lemma Code_with_local r1 r2 c f :
  agree_below (length f) r1 r2 →
  parse_attribute_info_Code_with r1 c f = parse_attribute_info_Code_with r2 c f.
Proof.
  intros H. unfold parse_attribute_info_Code_with.
  local_step shrinks_parse_i2. local_step shrinks_parse_i2.
  local_step shrinks_parse_i4. local_step shrinks_read.
  local_step shrinks_parse_i2.
  eapply bind_local; [apply shrinks_iterM; auto with stream|]; intros ? ? ?.
  local_step shrinks_parse_i2.
  unfold bind. rewrite H by lia. done.
Qed.

Lemma parse_attribute_info_with_local r1 r2 c name bs :
  agree_below (length bs) r1 r2 →
  parse_attribute_info_with r1 c name bs = parse_attribute_info_with r2 c name bs.
Proof.
  intros H. unfold parse_attribute_info_with, obind.
  destruct (AttributeInfoName_of name) as [[]| |]; try reflexivity.
  unfold on_bytes, sub_parser_with. by rewrite (Code_with_local r1 r2).
Qed.

Lemma parse_attribute_with_local r1 r2 c f :
  agree_below (length f) r1 r2 →
  parse_attribute_with r1 c f = parse_attribute_with r2 c f.
Proof.
  intros H. unfold parse_attribute_with.
  local_step shrinks_parse_i2. local_step shrinks_lift. local_step shrinks_lift.
  local_step shrinks_parse_i4.
  apply bind_local_eq. intros bs g E. apply read_Return in E. subst.
  rewrite length_app in *.
  unfold bind. rewrite (parse_attribute_info_with_local r1 r2); [done|].
  intros c' k h Hh. apply H. lia.
Qed.

Lemma shrinks_parse_attribute_with r c : shrinks 0 (parse_attribute_with r c).
Proof.
  unfold parse_attribute_with, parse_i2, parse_i4.
  repeat (apply shrinks0_bind; [auto with stream|intros ?]). auto with stream.
Qed.

Lemma parse_attributes_with_local r1 r2 c k f :
  agree_below (length f) r1 r2 →
  parse_attributes_with r1 c k f = parse_attributes_with r2 c k f.
Proof.
  intros H. unfold parse_attributes_with, for_range. apply iterM_local.
  - intros s. apply shrinks0_bind; [apply shrinks_parse_attribute_with|].
    auto with stream.
  - intros s g Hg. unfold bind.
    rewrite (parse_attribute_with_local r1 r2); [done|].
    intros c' k' h Hh. apply H. lia.
Qed.

Lemma fuel_irrelevant n1 n2 c k f :
  (length f < n1)%nat → (length f < n2)%nat →
  parse_attributes_fuel n1 c k f = parse_attributes_fuel n2 c k f.
Proof.
  revert n2 c k f. induction n1 as [|n1 IH]; intros n2 c k f H1 H2; [lia|].
  destruct n2 as [|n2]; [lia|]. simpl.
  apply parse_attributes_with_local. intros c' k' h Hh. apply IH; lia.
Qed.

(** The equation of the source: [parse_attributes] is its own loop, with
    itself called from the Code sub-parser. *)
Lemma parse_attributes_unfold c k f :
  parse_attributes c k f = parse_attributes_with parse_attributes c k f.
Proof.
  unfold parse_attributes at 1. simpl.
  apply parse_attributes_with_local. intros c' k' h Hh.
  unfold parse_attributes. apply fuel_irrelevant; lia.
Qed.

Lemma total_sub_parsers c :
  total (parse_attribute_info_BootstrapMethods c) ∧
  total (parse_attribute_info_SourceFile c) ∧
  total (parse_attribute_info_InnerClasses c) ∧
  total (parse_attribute_info_LineNumberTable c).
Proof.
  unfold parse_attribute_info_BootstrapMethods, parse_attribute_info_SourceFile,
    parse_attribute_info_InnerClasses, parse_attribute_info_LineNumberTable,
    for_range, parse_i2.
  repeat split; solve_total.
Qed.

Lemma total_parse_attributes_with r c k :
  (∀ c k, total (r c k)) → total (parse_attributes_with r c k).
Proof.
  intros Hr. unfold parse_attributes_with, for_range.
  apply total_iterM. intros s. apply total_bind; [|solve_total].
  unfold parse_attribute_with, parse_i2, parse_i4.
  apply total_bind; [solve_total|intros idx].
  apply total_bind; [apply total_lift, from_cp_total|intros cp].
  apply total_bind; [apply total_lift, py_item_total|intros name].
  apply total_bind; [solve_total|intros len].
  apply total_bind; [solve_total|intros bs].
  apply total_bind; [|solve_total].
  apply total_lift. unfold parse_attribute_info_with, obind.
  pose proof (AttributeInfoName_of_total name) as Hn.
  destruct (AttributeInfoName_of name) as [[]| |]; try congruence;
    apply on_bytes_total; unfold sub_parser_with; try apply total_sub_parsers.
  unfold parse_attribute_info_Code_with, for_range, parse_i2, parse_i4.
  solve_total. apply Hr.
Qed.

Lemma parse_attributes_total c k : total (parse_attributes c k).
Proof.
  intros f. remember (length f) as n eqn:Hn. revert c k f Hn.
  induction n as [n IH] using lt_wf_ind. intros c k f ->.
  rewrite parse_attributes_unfold.
  set (rec' := λ c k h, match parse_attributes c k h with
                        | OutOfFuel => Raise TypeError
                        | r => r
                        end).
  rewrite (parse_attributes_with_local parse_attributes rec').
  - apply total_parse_attributes_with. intros c' k' h. unfold rec'.
    destruct (parse_attributes c' k' h); discriminate.
  - intros c' k' h Hh. unfold rec'.
    specialize (IH (length h) Hh c' k' h eq_refl).
    destruct (parse_attributes c' k' h); congruence.
Qed.

End fuel.

(** ** The flag decoder *)

Lemma land_nonzero_bit (value mask : Z) :
  0 ≤ value < 65536 →
  Z.land value mask ≠ 0 ↔ mask_bit_set value mask = true.
Proof.
  intros Hv. unfold mask_bit_set. rewrite existsb_exists. split.
  - intros Hnz.
    assert (0 < Z.land value mask) as Hpos.
    { assert (0 ≤ Z.land value mask) by (apply Z.land_nonneg; left; lia). lia. }
    pose proof (Z.bit_log2 _ Hpos) as Hbit.
    rewrite Z.land_spec, andb_true_iff in Hbit. destruct Hbit as [Hb1 Hb2].
    pose proof (Z.log2_nonneg (Z.land value mask)) as Hk.
    assert (Z.log2 (Z.land value mask) < 16) as Hlt.
    { destruct (decide (Z.log2 (Z.land value mask) < 16)) as [|Hge]; [done|].
      rewrite Z.bits_above_log2 in Hb1; [done|lia|].
      assert (value ≠ 0) by (intros ->; rewrite Z.land_0_l in Hpos; lia).
      assert (Z.log2 value < 16); [|lia].
      apply Z.log2_lt_pow2; lia. }
    exists (Z.to_nat (Z.log2 (Z.land value mask))). split.
    + apply in_seq. lia.
    + rewrite Z2Nat.id by lia. by rewrite Hb1, Hb2.
  - intros (k & _ & Hb) Hz. apply andb_true_iff in Hb as [Hb1 Hb2].
    assert (Z.testbit (Z.land value mask) (Z.of_nat k) = true) as Hb
      by (by rewrite Z.land_spec, Hb1, Hb2).
    rewrite Hz, Z.bits_0 in Hb. done.
Qed.

(** C5. For every 16-bit value and every flag table, [parse_flags]
    returns exactly the names whose mask has a bit that is set in the
    value, in table order; value 0 gives the empty list, and 0x0011
    against the table PUBLIC = 0x0001, FINAL = 0x0010 gives PUBLIC then
    FINAL. *)
Theorem parse_flags_by_bit (value : Z) (flags : list (string * Z)) :
  0 ≤ value < 65536 →
  parse_flags value flags = flag_names_by_bit value flags
  ∧ sublist (parse_flags value flags) flags.*1
  ∧ parse_flags 0 flags = []
  ∧ parse_flags 0x0011 [("PUBLIC", 0x0001); ("FINAL", 0x0010)]%string
    = ["PUBLIC"; "FINAL"]%string.
Proof.
  intros Hv. unfold parse_flags. repeat split.
  - induction flags as [|[name mask] flags IH]; [done|].
    rewrite filter_cons. simpl.
    pose proof (land_nonzero_bit value mask Hv) as Hbit.
    destruct (mask_bit_set value mask); case_decide as Hm.
    + rewrite fmap_cons. simpl. f_equal. exact IH.
    + exfalso. destruct Hbit as [_ Hbit]. by apply Hbit.
    + exfalso. destruct Hbit as [Hbit _]. by apply Hbit in Hm.
    + exact IH.
  - apply fmap_sublist, sublist_filter.
  - induction flags as [|[name mask] flags IH]; [done|].
    rewrite filter_cons_False; [exact IH|]. intros Hne. by apply Hne.
Qed.

Lemma parse_flags_by_bit_witness :
  0 ≤ 0x0021 < 65536
  ∧ parse_flags 0x0021 (@CLASS_ACCESS_FLAGS jvms)
    = flag_names_by_bit 0x0021 (@CLASS_ACCESS_FLAGS jvms).
Proof.
  split; [lia|].
  apply (parse_flags_by_bit 0x0021 (@CLASS_ACCESS_FLAGS jvms)). lia.
Defined.

(** ** Reading a field that is there *)

Lemma parse_i1_cons b (rest : list byte) :
  parse_i1 (b :: rest) = Return (be_to_Z [b], rest).
Proof. apply (parse_uint_app 1 [b]). done. Qed.

Lemma parse_i2_cons b1 b2 (rest : list byte) :
  parse_i2 (b1 :: b2 :: rest) = Return (be_to_Z [b1; b2], rest).
Proof. apply (parse_uint_app 2 [b1; b2]). done. Qed.

Lemma parse_i4_cons b1 b2 b3 b4 (rest : list byte) :
  parse_i4 (b1 :: b2 :: b3 :: b4 :: rest) = Return (be_to_Z [b1; b2; b3; b4], rest).
Proof. apply (parse_uint_app 4 [b1; b2; b3; b4]). done. Qed.

(** Run the reads at the head of a stream given by its first bytes. *)
Ltac run_reads :=
  repeat (unfold bind, ret;
          first [ rewrite parse_i1_cons | rewrite parse_i2_cons
                | rewrite parse_i4_cons ];
          cbv beta iota).

Lemma bind_Return {A B} (m : M A) (k : A → M B) f a f' :
  m f = Return (a, f') → bind m k f = k a f'.
Proof. unfold bind. by intros ->. Qed.

Lemma bind_Raise {A B} (m : M A) (k : A → M B) f e :
  m f = Raise e → bind m k f = Raise e.
Proof. unfold bind. by intros ->. Qed.

Lemma iterM_appending_length {A} (m : M A) n acc f out f' :
  iterM n (appending m) acc f = Return (out, f') →
  length out = (length acc + n)%nat.
Proof.
  revert acc f. induction n as [|n IH]; intros acc f; simpl.
  - intros [= <- _]. lia.
  - unfold bind at 1, appending at 1, bind at 1.
    destruct (m f) as [[x g]| |]; try discriminate. unfold ret at 1.
    intros E. apply IH in E. rewrite length_app in E. simpl in E. lia.
Qed.

Lemma iterM_appending_encoded {A} (m : M A) (encs : list (list byte * A)) acc rest :
  Forall (λ bx, encodes m bx.1 bx.2) encs →
  iterM (length encs) (appending m) acc (concat encs.*1 ++ rest)
  = Return (acc ++ encs.*2, rest).
Proof.
  intros H. revert acc. induction H as [|[bs x] encs Hx _ IH]; intros acc.
  - simpl. by rewrite app_nil_r.
  - unfold encodes in Hx. simpl in Hx.
    rewrite !fmap_cons. cbn [concat length iterM fst snd Nat.add].
    unfold bind at 1, appending at 1, bind at 1.
    rewrite <- app_assoc, Hx. unfold ret at 1.
    rewrite IH, <- app_assoc. done.
Qed.

(** As above, for a loop that runs one more turn than there are encoded
    values: the next turn starts at [rest]. *)
Lemma iterM_appending_next {A} (m : M A) (encs : list (list byte * A)) n acc rest :
  Forall (λ bx, encodes m bx.1 bx.2) encs →
  iterM (length encs + S n) (appending m) acc (concat encs.*1 ++ rest)
  = (x <~ m ;; iterM n (appending m) ((acc ++ encs.*2) ++ [x])) rest.
Proof.
  intros H. revert acc. induction H as [|[bs x] encs Hx _ IH]; intros acc.
  - simpl. rewrite app_nil_r. unfold bind, appending, bind, ret.
    by destruct (m rest) as [[]| |].
  - unfold encodes in Hx. simpl in Hx.
    rewrite !fmap_cons. cbn [concat length iterM fst snd Nat.add].
    unfold bind at 1, appending at 1, bind at 1.
    rewrite <- app_assoc, Hx. unfold ret at 1.
    rewrite IH, <- app_assoc. done.
Qed.

(** ** The constant pool decoder *)

Section constant_pool.
Context {consts : jvmconsts}.

Lemma parse_constant_pool_appending count :
  parse_constant_pool count = for_range (count - 1) (appending parse_cp_info) [].
Proof. reflexivity. Qed.

Lemma parse_constant_pool_encoded (K : Z) (encs : list (list byte * pyval))
    (rest : list byte) :
  Z.of_nat (length encs) = K - 1 →
  Forall (λ be, encodes parse_cp_info be.1 be.2) encs →
  parse_constant_pool K (concat encs.*1 ++ rest) = Return (encs.*2, rest).
Proof.
  intros Hlen Hencs. rewrite parse_constant_pool_appending. unfold for_range.
  replace (Z.to_nat (K - 1)) with (length encs) by lia.
  by rewrite iterM_appending_encoded.
Qed.

(** C3. A pool count K >= 1 followed by K-1 well-formed entries decodes
    to exactly those K-1 entries, in the order of the input; and whenever
    the pool decoder returns, it returns K-1 entries. *)
Theorem parse_constant_pool_entries (K : Z) (encs : list (list byte * pyval))
    (rest : list byte) :
  1 ≤ K →
  Z.of_nat (length encs) = K - 1 →
  Forall (λ be, encodes parse_cp_info be.1 be.2) encs →
  parse_constant_pool K (concat encs.*1 ++ rest) = Return (encs.*2, rest)
  ∧ length encs.*2 = Z.to_nat (K - 1)
  ∧ ∀ f pool f', parse_constant_pool K f = Return (pool, f') →
                 length pool = Z.to_nat (K - 1).
Proof.
  intros HK Hlen Hencs. repeat split.
  - by apply parse_constant_pool_encoded.
  - rewrite length_fmap. lia.
  - intros f pool f' E. rewrite parse_constant_pool_appending in E.
    apply iterM_appending_length in E. simpl in E. lia.
Qed.

Lemma parse_cp_info_unsupported b (rest : list byte) :
  ¬ supported_tag (be_to_Z [b]) →
  ∃ e, unsupported_constant_tag (be_to_Z [b]) e ∧ parse_cp_info (b :: rest) = Raise e.
Proof.
  intros Hb. unfold parse_cp_info, supported_tag in *.
  rewrite (bind_Return _ _ _ _ _ (parse_i1_cons b rest)).
  destruct (Constant_value (be_to_Z [b])) as [[]|]; try (exfalso; by apply Hb).
  - eexists. split; [by right|]. done.
  - eexists. split; [by left|]. done.
Qed.

End constant_pool.

(** ** The class assembler *)

Section class_file.
Context {consts : jvmconsts}.

Lemma magic_number : hex (be_to_Z [xca; xfe; xba; xbe]) = "0xcafebabe"%string.
Proof. vm_compute. reflexivity. Qed.

Lemma parse_class_file_stream_header m1 m2 M1 M2 k1 k2 (f : list byte) :
  parse_class_file_stream (header m1 m2 M1 M2 k1 k2 ++ f)
  = (constant_pool <~ parse_constant_pool (be_to_Z [k1; k2]) ;;
     after_constant_pool (be_to_Z [M1; M2]) (be_to_Z [m1; m2]) constant_pool) f.
Proof.
  unfold parse_class_file_stream, header. cbn [app].
  rewrite (bind_Return _ _ _ _ _ (parse_i4_cons _ _ _ _ _)).
  rewrite magic_number. rewrite decide_False by (intros H; by apply H).
  do 3 rewrite (bind_Return _ _ _ _ _ (parse_i2_cons _ _ _)).
  reflexivity.
Qed.

Lemma for_range_raise_pos {S} n e (s : S) (f : list byte) :
  0 < n → for_range n (λ _, raise e) s f = Raise e.
Proof.
  intros Hn. unfold for_range.
  destruct (Z.to_nat n) as [|k] eqn:E; [lia|]. reflexivity.
Qed.

Lemma for_range_zero {S} (body : S → M S) (s : S) (f : list byte) :
  for_range 0 body s f = Return (s, f).
Proof. reflexivity. Qed.

(** C4. A constant-pool entry whose tag byte is outside the supported
    set aborts the pool decoder and the whole decode with
    [NotImplementedError], whose message carries the tag value: the entry
    is not skipped and no pool is returned. *)
Theorem unsupported_tag_aborts (m1 m2 M1 M2 k1 k2 b : byte)
    (encs : list (list byte * pyval)) (rest : list byte) :
  Z.of_nat (length encs) < be_to_Z [k1; k2] - 1 →
  Forall (λ be, encodes parse_cp_info be.1 be.2) encs →
  ¬ supported_tag (be_to_Z [b]) →
  ∃ e, unsupported_constant_tag (be_to_Z [b]) e
       ∧ parse_constant_pool (be_to_Z [k1; k2]) (concat encs.*1 ++ b :: rest) = Raise e
       ∧ parse_class_file (header m1 m2 M1 M2 k1 k2 ++ concat encs.*1 ++ b :: rest)
         = Raise e.
Proof.
  intros Hlen Hencs Hb.
  destruct (parse_cp_info_unsupported b rest Hb) as (e & He & Hraise).
  assert (parse_constant_pool (be_to_Z [k1; k2]) (concat encs.*1 ++ b :: rest) = Raise e)
    as Hpool.
  { rewrite parse_constant_pool_appending. unfold for_range.
    replace (Z.to_nat (be_to_Z [k1; k2] - 1))
      with (length encs + S (Z.to_nat (be_to_Z [k1; k2] - 1) - S (length encs)))%nat
      by lia.
    rewrite iterM_appending_next by done. by apply bind_Raise. }
  exists e. repeat split; [done..|].
  unfold parse_class_file, on_bytes.
  rewrite parse_class_file_stream_header, (bind_Raise _ _ _ _ Hpool). done.
Qed.

End class_file.

(** ** Encodings of constant-pool entries *)

Section encodings.
Context {consts : jvmconsts}.

Lemma encodes_Class t n1 n2 :
  Constant_value (be_to_Z [t]) = Some CONSTANT_Class →
  encodes parse_cp_info [t; n1; n2]
    (VDict (<["tag" := VStr "CONSTANT_Class"]>
              (<["name_index" := VInt (be_to_Z [n1; n2])]> ∅))).
Proof.
  intros Ht rest. unfold parse_cp_info. cbn [app].
  run_reads. rewrite Ht. run_reads. reflexivity.
Qed.

Lemma encodes_Utf8 t l1 l2 (bytes : list byte) :
  Constant_value (be_to_Z [t]) = Some CONSTANT_Utf8 →
  Z.of_nat (length bytes) = be_to_Z [l1; l2] →
  encodes parse_cp_info ([t; l1; l2] ++ bytes)
    (VDict (<["tag" := VStr "CONSTANT_Utf8"]> (<["bytes" := VBytes bytes]> ∅))).
Proof.
  intros Ht Hlen rest. unfold parse_cp_info. rewrite <- app_assoc. cbn [app].
  run_reads. rewrite Ht. run_reads.
  rewrite (read_app _ bytes rest Hlen). reflexivity.
Qed.

Lemma encodes_Integer t b1 b2 b3 b4 :
  Constant_value (be_to_Z [t]) = Some CONSTANT_Integer →
  encodes parse_cp_info [t; b1; b2; b3; b4]
    (VDict (<["tag" := VStr "CONSTANT_Integer"]>
              (<["bytes" := VInt (be_to_Z [b1; b2; b3; b4])]> ∅))).
Proof.
  intros Ht rest. unfold parse_cp_info. cbn [app].
  run_reads. rewrite Ht. run_reads. reflexivity.
Qed.

End encodings.

Lemma Main_pool_encodes :
  Forall (λ be, encodes (@parse_cp_info jvms) be.1 be.2) Main_pool.
Proof.
  apply Forall_cons; split; [by apply encodes_Utf8|].
  apply Forall_cons; split; [by apply (encodes_Class x07 x00 x01)|].
  apply Forall_nil_2.
Qed.

Lemma parse_constant_pool_entries_witness :
  1 ≤ 3 ∧ Z.of_nat (length Main_pool) = 3 - 1
  ∧ @parse_constant_pool jvms 3 (concat Main_pool.*1 ++ [x00; x21])
    = Return (Main_pool.*2, [x00; x21]).
Proof.
  split; [lia|]. split; [reflexivity|].
  apply (@parse_constant_pool_entries jvms 3 Main_pool [x00; x21]);
    [lia|reflexivity|apply Main_pool_encodes].
Defined.

Lemma unsupported_tag_aborts_witness :
  ∃ e, @unsupported_constant_tag 2 e
       ∧ @parse_class_file jvms
           (header x00 x00 x00 x34 x00 x04 ++ concat Main_pool.*1 ++ [x02; x00; x00])
         = Raise e.
Proof.
  destruct (@unsupported_tag_aborts jvms x00 x00 x00 x34 x00 x04 x02 Main_pool [x00; x00])
    as (e & He & _ & Hfile).
  - vm_compute. reflexivity.
  - apply Main_pool_encodes.
  - vm_compute. tauto.
  - exists e. split; [exact He|exact Hfile].
Defined.

(** ** Interfaces and fields *)

Section unsupported_members.
Context {consts : jvmconsts}.

Lemma be_to_Z_pos (bs : list byte) : be_to_Z bs ≠ 0 → 0 < be_to_Z bs.
Proof. pose proof (be_to_Z_bounds bs). lia. Qed.

(** A non-zero interfaces count aborts the decode, whatever follows. *)
Lemma interfaces_count_nonzero (m1 m2 M1 M2 k1 k2 a1 a2 t1 t2 s1 s2 i1 i2 : byte)
    (encs : list (list byte * pyval)) (rest : list byte) :
  Z.of_nat (length encs) = be_to_Z [k1; k2] - 1 →
  Forall (λ be, encodes parse_cp_info be.1 be.2) encs →
  be_to_Z [i1; i2] ≠ 0 →
  parse_class_file (header m1 m2 M1 M2 k1 k2 ++ concat encs.*1
                    ++ [a1; a2; t1; t2; s1; s2; i1; i2] ++ rest)
  = Raise (NotImplementedError "We don't support interfaces").
Proof.
  intros Hlen Hencs Hi. unfold parse_class_file, on_bytes.
  rewrite parse_class_file_stream_header.
  rewrite (bind_Return _ _ _ _ _ (parse_constant_pool_encoded _ _ _ Hlen Hencs)).
  unfold after_constant_pool. cbn [app]. run_reads.
  unfold parse_interfaces. rewrite for_range_raise_pos by by apply be_to_Z_pos.
  reflexivity.
Qed.

(** A non-zero fields count aborts the decode too, with the message of
    [parse_interfaces]. *)
Lemma fields_count_nonzero (m1 m2 M1 M2 k1 k2 a1 a2 t1 t2 s1 s2 f1 f2 : byte)
    (encs : list (list byte * pyval)) (rest : list byte) :
  Z.of_nat (length encs) = be_to_Z [k1; k2] - 1 →
  Forall (λ be, encodes parse_cp_info be.1 be.2) encs →
  be_to_Z [f1; f2] ≠ 0 →
  parse_class_file (header m1 m2 M1 M2 k1 k2 ++ concat encs.*1
                    ++ [a1; a2; t1; t2; s1; s2; x00; x00; f1; f2] ++ rest)
  = Raise (NotImplementedError "We don't support interfaces").
Proof.
  intros Hlen Hencs Hi. unfold parse_class_file, on_bytes.
  rewrite parse_class_file_stream_header.
  rewrite (bind_Return _ _ _ _ _ (parse_constant_pool_encoded _ _ _ Hlen Hencs)).
  unfold after_constant_pool. cbn [app]. run_reads.
  unfold parse_interfaces. rewrite for_range_zero. run_reads.
  unfold parse_fields. rewrite for_range_raise_pos by by apply be_to_Z_pos.
  reflexivity.
Qed.

End unsupported_members.

(** ** The attribute decoder *)

Section attributes.

Lemma parse_attribute_info_unfold clazz name bs :
  parse_attribute_info clazz name bs
  = (t <~ AttributeInfoName_of name ;;; on_bytes (sub_parser clazz t) bs).
Proof. reflexivity. Qed.

(** One attribute: the name is resolved, the declared number of payload
    bytes (or as many as remain) is taken off the stream, and the
    sub-parser reads the bytes taken. *)
Lemma parse_attribute_run clazz (n1 n2 l1 l2 l3 l4 : byte) (f : list byte) cp name t :
  from_cp clazz (be_to_Z [n1; n2]) = Return cp →
  py_item cp "bytes" = Return name →
  AttributeInfoName_of name = Return t →
  let L := Z.to_nat (be_to_Z [l1; l2; l3; l4]) in
  parse_attribute clazz ([n1; n2; l1; l2; l3; l4] ++ f)
  = match sub_parser clazz t (take L f) with
    | Return (info, _) =>
        Return (attribute_dict (be_to_Z [n1; n2]) name info, drop L f)
    | Raise e => Raise e
    | OutOfFuel => OutOfFuel
    end.
Proof.
  intros Hcp Hname Ht L. unfold parse_attribute, parse_attribute_with. cbn [app].
  run_reads. unfold lift at 1. rewrite Hcp. cbv beta iota.
  unfold lift at 1. rewrite Hname. cbv beta iota.
  run_reads. unfold read.
  rewrite decide_False by (pose proof (be_to_Z_bounds [l1; l2; l3; l4]); lia).
  cbv beta iota. unfold lift, parse_attribute_info_with, obind. rewrite Ht.
  unfold on_bytes, sub_parser. fold L.
  by destruct (sub_parser_with parse_attributes clazz t (take L f)) as [[info g]| |].
Qed.

Lemma sub_parser_total clazz t : total (sub_parser clazz t).
Proof.
  destruct t; unfold sub_parser, sub_parser_with; try apply total_sub_parsers.
  unfold parse_attribute_info_Code_with, for_range, parse_i2, parse_i4.
  solve_total. apply parse_attributes_total.
Qed.

Lemma parse_attributes_one clazz (f : list byte) :
  parse_attributes clazz 1 f
  = match parse_attribute clazz f with
    | Return (attribute, f') => Return ([attribute], f')
    | Raise e => Raise e
    | OutOfFuel => OutOfFuel
    end.
Proof.
  rewrite parse_attributes_unfold. unfold parse_attributes_with, for_range.
  simpl. unfold bind, parse_attribute, ret.
  by destruct (parse_attribute_with parse_attributes clazz f) as [[a g]| |].
Qed.

Lemma parse_attributes_zero clazz (f : list byte) :
  parse_attributes clazz 0 f = Return ([], f).
Proof. by rewrite parse_attributes_unfold. Qed.

(** C8, as the code has it.  An attribute with declared payload length
    L: the sub-parser reads a stream of its own that holds the first L
    bytes after the header, or all the bytes that are left when fewer
    than L are, so its result does not depend on the input after them and
    it cannot read past them; when it returns, whatever it left unread,
    the attribute is decoded and the outer stream stands past the bytes
    it was given: exactly L bytes past the start of the payload when L
    bytes were there, at the end of the input otherwise. *)
Theorem attribute_payload_cursor clazz (n1 n2 l1 l2 l3 l4 : byte)
    (f : list byte) cp name t :
  from_cp clazz (be_to_Z [n1; n2]) = Return cp →
  py_item cp "bytes" = Return name →
  AttributeInfoName_of name = Return t →
  let L := Z.to_nat (be_to_Z [l1; l2; l3; l4]) in
  parse_attribute clazz ([n1; n2; l1; l2; l3; l4] ++ f)
  = match sub_parser clazz t (take L f) with
    | Return (info, unread) =>
        Return (attribute_dict (be_to_Z [n1; n2]) name info, drop L f)
    | Raise e => Raise e
    | OutOfFuel => OutOfFuel
    end
  ∧ sub_parser clazz t (take L f) ≠ OutOfFuel
  ∧ length (take L f) = (L `min` length f)%nat
  ∧ length f = (length (drop L f) + L `min` length f)%nat
  ∧ (∀ info unread,
       sub_parser clazz t (take L f) = Return (info, unread) →
       parse_attributes clazz 1 ([n1; n2; l1; l2; l3; l4] ++ f)
       = Return ([attribute_dict (be_to_Z [n1; n2]) name info], drop L f))
  ∧ (∀ payload rest,
       f = payload ++ rest → length payload = L →
       take L f = payload ∧ drop L f = rest
       ∧ parse_attribute clazz ([n1; n2; l1; l2; l3; l4] ++ payload ++ rest)
         = match sub_parser clazz t payload with
           | Return (info, unread) =>
               Return (attribute_dict (be_to_Z [n1; n2]) name info, rest)
           | Raise e => Raise e
           | OutOfFuel => OutOfFuel
           end)
  ∧ ((length f < L)%nat → take L f = f ∧ drop L f = []).
Proof.
  intros Hcp Hname Ht L.
  pose proof (parse_attribute_run clazz n1 n2 l1 l2 l3 l4 f cp name t Hcp Hname Ht)
    as Hrun. cbv zeta in Hrun. fold L in Hrun.
  split; [exact Hrun|]. split; [apply sub_parser_total|].
  split; [apply length_take|].
  split; [rewrite length_drop; lia|].
  split; [|split].
  - intros info unread Hsub. rewrite parse_attributes_one, Hrun, Hsub. done.
  - intros payload rest -> <-.
    rewrite take_app_length, drop_app_length in *. done.
  - intros Hshort. by rewrite take_ge, drop_ge by lia.
Qed.

(** The Code sub-parser up to the exception-table count. *)
Lemma parse_attribute_info_Code_run clazz (s1 s2 o1 o2 c1 c2 c3 c4 e1 e2 : byte)
    (code rest : list byte) :
  Z.of_nat (length code) = be_to_Z [c1; c2; c3; c4] →
  parse_attribute_info_Code clazz
    ([s1; s2; o1; o2; c1; c2; c3; c4] ++ code ++ [e1; e2] ++ rest)
  = (_ <~ for_range (be_to_Z [e1; e2])
            (λ _ : unit, raise (NotImplementedError "We don't support exception tables")) () ;;
     attributes_count <~ parse_i2 ;;
     attributes <~ parse_attributes clazz attributes_count ;;
     ret (code_dict (be_to_Z [s1; s2]) (be_to_Z [o1; o2]) code attributes)) rest.
Proof.
  intros Hlen. unfold parse_attribute_info_Code, parse_attribute_info_Code_with.
  cbn [app].
  do 3 (unfold bind at 1;
        first [rewrite parse_i2_cons | rewrite parse_i4_cons]; cbv beta iota).
  unfold bind at 1. rewrite (read_app _ code _ Hlen). cbv beta iota. cbn [app].
  unfold bind at 1. rewrite parse_i2_cons. reflexivity.
Qed.

(** C6. In a Code payload, a non-zero exception-table count makes the
    decoding fail with [NotImplementedError] (the table is not skipped);
    with a zero count the decoding goes on with the nested attribute
    list, and returns when that list is decoded, as it is when the list
    is empty. *)
Theorem exception_table_count clazz (s1 s2 o1 o2 c1 c2 c3 c4 e1 e2 : byte)
    (code rest : list byte) :
  Z.of_nat (length code) = be_to_Z [c1; c2; c3; c4] →
  let payload := [s1; s2; o1; o2; c1; c2; c3; c4] ++ code ++ [e1; e2] ++ rest in
  (be_to_Z [e1; e2] ≠ 0 →
     parse_attribute_info_Code clazz payload
     = Raise (NotImplementedError "We don't support exception tables")
     ∧ parse_attribute_info clazz (VBytes (AttributeInfoName_value CODE)) payload
       = Raise (NotImplementedError "We don't support exception tables"))
  ∧ (be_to_Z [e1; e2] = 0 →
       parse_attribute_info_Code clazz payload
       = (attributes_count <~ parse_i2 ;;
          attributes <~ parse_attributes clazz attributes_count ;;
          ret (code_dict (be_to_Z [s1; s2]) (be_to_Z [o1; o2]) code attributes)) rest)
  ∧ (be_to_Z [e1; e2] = 0 →
       ∀ rest', rest = [x00; x00] ++ rest' →
       parse_attribute_info_Code clazz payload
       = Return (code_dict (be_to_Z [s1; s2]) (be_to_Z [o1; o2]) code [], rest')
       ∧ parse_attribute_info clazz (VBytes (AttributeInfoName_value CODE)) payload
         = Return (code_dict (be_to_Z [s1; s2]) (be_to_Z [o1; o2]) code [])).
Proof.
  intros Hlen payload. unfold payload.
  pose proof (parse_attribute_info_Code_run clazz s1 s2 o1 o2 c1 c2 c3 c4 e1 e2
                code rest Hlen) as Hrun.
  assert (∀ bs, parse_attribute_info clazz (VBytes (AttributeInfoName_value CODE)) bs
                = on_bytes (parse_attribute_info_Code clazz) bs) as Hinfo
    by reflexivity.
  split; [|split].
  - intros Hne.
    assert (parse_attribute_info_Code clazz
              ([s1; s2; o1; o2; c1; c2; c3; c4] ++ code ++ [e1; e2] ++ rest)
            = Raise (NotImplementedError "We don't support exception tables"))
      as Hcode.
    { rewrite Hrun. apply bind_Raise, for_range_raise_pos. by apply be_to_Z_pos. }
    split; [exact Hcode|]. rewrite Hinfo. unfold on_bytes. by rewrite Hcode.
  - intros He. rewrite Hrun, He. reflexivity.
  - intros He rest' ->.
    assert (parse_attribute_info_Code clazz
              ([s1; s2; o1; o2; c1; c2; c3; c4] ++ code ++ [e1; e2] ++ [x00; x00] ++ rest')
            = Return (code_dict (be_to_Z [s1; s2]) (be_to_Z [o1; o2]) code [], rest'))
      as Hcode.
    { rewrite Hrun, He.
      erewrite bind_Return by apply for_range_zero. cbn [app].
      erewrite bind_Return by apply parse_i2_cons.
      erewrite bind_Return by apply parse_attributes_zero. reflexivity. }
    split; [exact Hcode|]. rewrite Hinfo. unfold on_bytes. by rewrite Hcode.
Qed.

End attributes.

(** ** Input that ends early *)

Section truncation.
Context {consts : jvmconsts}.

Lemma parse_cp_info_nil : parse_cp_info [] = Raise TruncatedInput.
Proof. reflexivity. Qed.





End truncation.

(** ** The lookups into a decoded class *)

Lemma bind_Return_inv {A B} (m : M A) (k : A → M B) f r :
  bind m k f = Return r → ∃ a f', m f = Return (a, f') ∧ k a f' = Return r.
Proof.
  unfold bind. destruct (m f) as [[a f']| |]; try discriminate. eauto.
Qed.

Lemma py_index_nonneg {A} (l : list A) (i : Z) :
  0 ≤ i < Z.of_nat (length l) →
  ∃ x, l !! Z.to_nat i = Some x ∧ py_index l i = Return x.
Proof.
  intros Hi. unfold py_index. rewrite decide_True by done.
  destruct (lookup_lt_is_Some_2 l (Z.to_nat i)) as [x Hx]; [lia|].
  rewrite Hx. eauto.
Qed.

Lemma py_index_out_of_range {A} (l : list A) (i : Z) :
  i < - Z.of_nat (length l) ∨ Z.of_nat (length l) ≤ i →
  py_index l i = Raise IndexError.
Proof.
  intros Hi. unfold py_index.
  rewrite decide_False by lia. rewrite decide_False by lia. done.
Qed.

Section lookups.
Context {consts : jvmconsts}.

Lemma after_constant_pool_pool v_major v_minor pool f clazz f' :
  after_constant_pool v_major v_minor pool f = Return (clazz, f') →
  constant_pool clazz = pool.
Proof.
  unfold after_constant_pool. intros H.
  do 11 (apply bind_Return_inv in H as (? & ? & _ & H)).
  by injection H as <- _.
Qed.

(** C9. In a decoded class whose pool has the N-1 entries of the input,
    [from_cp] at i in [1, N-1] returns the i-th of them, counting from 1
    in the order of the input; at 0 and at every negative index it fails
    with [AssertionError]. *)
Theorem from_cp_one_based (m1 m2 M1 M2 k1 k2 : byte)
    (encs : list (list byte * pyval)) (tail : list byte) (clazz : JVMClass) :
  Z.of_nat (length encs) = be_to_Z [k1; k2] - 1 →
  Forall (λ be, encodes parse_cp_info be.1 be.2) encs →
  parse_class_file (header m1 m2 M1 M2 k1 k2 ++ concat encs.*1 ++ tail) = Return clazz →
  constant_pool clazz = encs.*2
  ∧ ∀ i : Z,
      (1 ≤ i ≤ be_to_Z [k1; k2] - 1 →
         ∃ e, encs.*2 !! Z.to_nat (i - 1) = Some e ∧ from_cp clazz i = Return e)
      ∧ (i ≤ 0 →
           from_cp clazz i = Raise (AssertionError "Constant pool index must be positive")).
Proof.
  intros Hlen Hencs Hfile.
  assert (constant_pool clazz = encs.*2) as Hpool.
  { unfold parse_class_file, on_bytes in Hfile.
    rewrite parse_class_file_stream_header in Hfile.
    rewrite (bind_Return _ _ _ _ _ (parse_constant_pool_encoded _ _ _ Hlen Hencs))
      in Hfile.
    destruct (after_constant_pool _ _ _ tail) as [[c g]| |] eqn:E; try discriminate.
    injection Hfile as ->. by eapply after_constant_pool_pool. }
  split; [exact Hpool|]. intros i. split.
  - intros Hi. unfold from_cp. rewrite decide_True by lia. rewrite Hpool.
    apply py_index_nonneg. rewrite length_fmap. lia.
  - intros Hi. unfold from_cp. by rewrite decide_False by lia.
Qed.

End lookups.

Lemma from_bsm_scan_skip (pre : list pyval) (attrs : list pyval) (index : Z) :
  Forall (λ a, ∃ n, py_item a "_name" = Return n
                    ∧ eq_bytes n (AttributeInfoName_value BOOTSTRAP_METHOD) = false) pre →
  from_bsm_scan (pre ++ attrs) index = from_bsm_scan attrs index.
Proof.
  induction 1 as [|a pre (n & Hn & Hne) _ IH]; [done|].
  cbn [app from_bsm_scan]. rewrite Hn. unfold obind. by rewrite Hne.
Qed.

(** C10. [from_bsm] counts from 0 in the method list of the first
    attribute named BootstrapMethods, whatever attributes follow it, other
    BootstrapMethods attributes included: index 0 returns the first
    method of that list, an index within the list returns the method at
    it, and every negative index fails with [AssertionError]. *)
Theorem from_bsm_zero_based (clazz : JVMClass) (pre post : list pyval)
    (attr info : dict) (m : pyval) (ms : list pyval) :
  attributes clazz = Some (pre ++ VDict attr :: post) →
  Forall (λ a, ∃ n, py_item a "_name" = Return n
                    ∧ eq_bytes n (AttributeInfoName_value BOOTSTRAP_METHOD) = false) pre →
  attr !! "_name" = Some (VBytes (AttributeInfoName_value BOOTSTRAP_METHOD)) →
  attr !! "info" = Some (VDict info) →
  info !! "bootstrap_methods" = Some (VList (m :: ms)) →
  from_bsm clazz 0 = Return m
  ∧ (∀ k : Z, 0 ≤ k < Z.of_nat (length (m :: ms)) →
       ∃ x, (m :: ms) !! Z.to_nat k = Some x ∧ from_bsm clazz k = Return x)
  ∧ (∀ k : Z, k < 0 →
       from_bsm clazz k
       = Raise (AssertionError "Bootstrap method index must be non-negative")).
Proof.
  intros Hattrs Hpre Hname Hinfo Hbsm.
  assert (∀ k, 0 ≤ k → from_bsm clazz k = py_index (m :: ms) k) as Hrun.
  { intros k Hk. unfold from_bsm. rewrite decide_True by lia.
    rewrite Hattrs, from_bsm_scan_skip by done.
    cbn [from_bsm_scan py_item obind]. rewrite Hname. cbn [obind eq_bytes].
    rewrite bool_decide_eq_true_2 by done.
    rewrite Hinfo. cbn [obind py_item]. rewrite Hbsm. reflexivity. }
  split; [by rewrite Hrun|]. split.
  - intros k Hk. rewrite Hrun by lia. by apply py_index_nonneg.
  - intros k Hk. unfold from_bsm. by rewrite decide_False by lia.
Qed.

(** What holds of [get_name_of_class]: an index past the end of the
    pool, or before its start, fails; and a name is returned only from an
    entry whose [bytes] field holds bytes. *)
Lemma get_name_of_class_out_of_range (clazz : JVMClass) (class_index : Z) :
  class_index ≤ - Z.of_nat (length (constant_pool clazz))
  ∨ Z.of_nat (length (constant_pool clazz)) < class_index →
  get_name_of_class clazz class_index = Raise IndexError.
Proof.
  intros H. unfold get_name_of_class.
  rewrite py_index_out_of_range by lia. done.
Qed.

Lemma get_name_of_class_Return (clazz : JVMClass) (class_index : Z) (name : string) :
  get_name_of_class clazz class_index = Return name →
  ∃ c name_index u b,
    py_index (constant_pool clazz) (class_index - 1) = Return c
    ∧ py_item c "name_index" = Return (VInt name_index)
    ∧ py_index (constant_pool clazz) (name_index - 1) = Return u
    ∧ py_item u "bytes" = Return (VBytes b)
    ∧ name = string_of_list_byte b.
Proof.
  unfold get_name_of_class, obind. intros H.
  destruct (py_index _ (class_index - 1)) as [c| |] eqn:Ec; try discriminate.
  destruct (py_item c "name_index") as [[name_index| | | | |]| |] eqn:En;
    try discriminate.
  cbn [py_index_pred] in H.
  destruct (py_index _ (name_index - 1)) as [u| |] eqn:Eu; try discriminate.
  destruct (py_item u "bytes") as [[| |b| | |]| |] eqn:Eb; try discriminate.
  cbn [decode_utf8] in H. case_match; try discriminate.
  injection H as <-. by exists c, name_index, u, b.
Qed.

(** The decoder is total: it returns a class or raises. *)
Lemma parse_class_file_total `{consts : jvmconsts} (file : list byte) :
  parse_class_file file ≠ OutOfFuel.
Proof.
  apply on_bytes_total. unfold parse_class_file_stream.
  apply total_bind; [apply total_parse_uint|intros magic].
  case_decide; [apply total_raise|].
  unfold parse_constant_pool, parse_interfaces, parse_fields, for_range,
    parse_method, parse_i2.
  solve_total; try apply parse_attributes_total.
  unfold parse_cp_info, parse_f4, parse_i1, parse_i2, parse_i4.
  solve_total. repeat case_match; solve_total.
Qed.

(** ** The decoder on concrete class files *)

(** C1 on the code: the pool of [Main_class_file] ends with a Class
    entry, and [get_name_of_class] at index 0 reads the pool at -1, its
    last entry, and returns its name instead of failing. *)
Theorem get_name_of_class_index_zero :
  @parse_class_file jvms Main_class_file = Return Main_clazz
  ∧ get_name_of_class Main_clazz 0 = Return "Main"%string
  ∧ get_name_of_class Main_clazz 2 = Return "Main"%string
  ∧ from_cp Main_clazz 0
    = Raise (AssertionError "Constant pool index must be positive").
Proof. repeat split; vm_compute; reflexivity. Qed.

(** C7 on the code: a fields count of 1 makes the decode fail with the
    very error of a non-zero interfaces count, the message of which names
    interfaces. *)
Theorem fields_count_raises_interfaces_message :
  @parse_class_file jvms field_class_file
  = Raise (NotImplementedError "We don't support interfaces").
Proof. vm_compute. reflexivity. Qed.



Lemma exception_table_count_witness :
  be_to_Z [x00; x01] ≠ 0
  ∧ parse_attribute_info_Code Main_clazz
      ([x00; x02; x00; x01; x00; x00; x00; x01] ++ [xb1] ++ [x00; x01] ++ [])
    = Raise (NotImplementedError "We don't support exception tables").
Proof.
  split; [discriminate|].
  apply (proj1 (exception_table_count Main_clazz
                  x00 x02 x00 x01 x00 x00 x00 x01 x00 x01 [xb1] [] eq_refl)).
  discriminate.
Defined.

(** C8 does not hold as stated: with a declared payload length of 4 and
    three bytes left in the input, the sub-parser is given the three
    bytes, the attribute is decoded, and the outer stream stands three
    bytes past the start of the payload, at the end of the input. *)
Lemma short_payload_cursor :
  be_to_Z [x00; x00; x00; x04] = 4
  ∧ parse_attribute SourceFile_clazz_in_progress
      ([x00; x03; x00; x00; x00; x04] ++ [x00; x01; x00])
    = Return (attribute_dict 3 (VBytes (list_byte_of_string "SourceFile"))
                (VDict (<["sourcefile_index" := VInt 1]> ∅)), [])
  ∧ length [x00; x01; x00] ≠ (length ([] : list byte) + 4)%nat.
Proof. repeat split; try (vm_compute; reflexivity). simpl. lia. Qed.

Lemma attribute_payload_cursor_witness :
  parse_attributes SourceFile_clazz_in_progress 1
    ([x00; x03; x00; x00; x00; x04] ++ [x00; x01; xff; xff; xaa])
  = Return ([attribute_dict 3 (VBytes (list_byte_of_string "SourceFile"))
               (VDict (<["sourcefile_index" := VInt 1]> ∅))], [xaa]).
Proof.
  eapply (proj1 (proj2 (proj2 (proj2 (proj2
            (attribute_payload_cursor SourceFile_clazz_in_progress
               x00 x03 x00 x00 x00 x04 [x00; x01; xff; xff; xaa] _
               (VBytes (list_byte_of_string "SourceFile")) SOURCE_FILE
               eq_refl eq_refl eq_refl)))))
            _ [xff; xff]).
  reflexivity.
Defined.

Lemma from_cp_one_based_witness :
  from_cp Main_clazz 2
  = Return (VDict (<["tag" := VStr "CONSTANT_Class"]> (<["name_index" := VInt 1]> ∅))).
Proof.
  destruct (@from_cp_one_based jvms x00 x00 x00 x34 x00 x03 Main_pool no_members
              Main_clazz eq_refl Main_pool_encodes eq_refl) as [_ H].
  destruct (proj1 (H 2)) as (e & He & ->); [done|].
  by injection He as <-.
Defined.

Lemma two_bsm_class_file_decoded :
  @parse_class_file jvms two_bsm_class_file = Return two_bsm_clazz.
Proof. vm_compute. reflexivity. Qed.

Lemma from_bsm_zero_based_witness :
  from_bsm two_bsm_clazz 0 = Return (bootstrap_method_dict 5).
Proof.
  eapply (from_bsm_zero_based two_bsm_clazz _ _ _ _ _ _ eq_refl).
  - apply Forall_cons; split; [|apply Forall_nil_2].
    eexists. split; reflexivity.
  - reflexivity.
  - reflexivity.
  - reflexivity.
Defined.

(** * Further properties of the decoder *)

(** ** The magic number *)

Lemma hex_magic_inv (z : Z) : hex z = "0xcafebabe"%string → z = 3405691582.
Proof.
  unfold hex. intros H. rewrite <- (HexString.to_Z_of_Z z), H. reflexivity.
Qed.

Lemma byte_of_to_N (b : byte) (n : N) (c : byte) :
  Byte.of_N n = Some c → Byte.to_N b = n → b = c.
Proof.
  intros Hc Hb. pose proof (Byte.of_to_N b) as H. rewrite Hb, Hc in H.
  by injection H.
Qed.

Lemma be_to_Z_magic_inv (b1 b2 b3 b4 : byte) :
  be_to_Z [b1; b2; b3; b4] = 3405691582 → [b1; b2; b3; b4] = [xca; xfe; xba; xbe].
Proof.
  unfold be_to_Z. cbn [foldl]. intros H.
  pose proof (Byte.to_N_bounded b1). pose proof (Byte.to_N_bounded b2).
  pose proof (Byte.to_N_bounded b3). pose proof (Byte.to_N_bounded b4).
  rewrite (byte_of_to_N b1 202 xca), (byte_of_to_N b2 254 xfe),
    (byte_of_to_N b3 186 xba), (byte_of_to_N b4 190 xbe); [done|..];
    first [reflexivity|lia].
Qed.

(** X1. A file whose first four bytes are not CA FE BA BE is rejected
    with [RuntimeError] as soon as they are read, whatever follows them
    and whatever the tables of [jvmconsts]. *)
Theorem invalid_magic `{consts : jvmconsts} (b1 b2 b3 b4 : byte) (rest : list byte) :
  [b1; b2; b3; b4] ≠ [xca; xfe; xba; xbe] →
  parse_class_file (b1 :: b2 :: b3 :: b4 :: rest)
  = Raise (RuntimeError "Not a Java file: invalid magic number").
Proof.
  intros Hne. unfold parse_class_file, on_bytes, parse_class_file_stream.
  rewrite (bind_Return _ _ _ _ _ (parse_i4_cons _ _ _ _ _)).
  rewrite decide_True; [done|].
  intros H. by apply Hne, be_to_Z_magic_inv, hex_magic_inv.
Qed.

Lemma invalid_magic_witness :
  @parse_class_file jvms ([xde; xad; xbe; xef] ++ no_members)
  = Raise (RuntimeError "Not a Java file: invalid magic number").
Proof. apply (@invalid_magic jvms xde xad xbe xef no_members). discriminate. Defined.

(** ** A class without members *)

Lemma parse_constant_pool_encoded_nat `{consts : jvmconsts} (K : Z)
    (encs : list (list byte * pyval)) (rest : list byte) :
  length encs = Z.to_nat (K - 1) →
  Forall (λ be, encodes parse_cp_info be.1 be.2) encs →
  parse_constant_pool K (concat encs.*1 ++ rest) = Return (encs.*2, rest).
Proof.
  intros Hlen Hencs. rewrite parse_constant_pool_appending. unfold for_range.
  rewrite <- Hlen. by rewrite iterM_appending_encoded.
Qed.

(** X2. A file made of the magic number, a version, a pool count K with
    the max(K-1, 0) entries it announces, the access flags, this_class,
    super_class and four zero counts is decoded, whatever bytes follow
    it.  The version of the class is (major, minor) although minor comes
    first in the file; this_class and super_class are stored as read,
    without any check against the pool; methods and attributes are the
    empty lists. *)
Theorem class_without_members `{consts : jvmconsts}
    (m1 m2 M1 M2 k1 k2 a1 a2 t1 t2 s1 s2 : byte)
    (encs : list (list byte * pyval)) (rest : list byte) :
  length encs = Z.to_nat (be_to_Z [k1; k2] - 1) →
  Forall (λ be, encodes parse_cp_info be.1 be.2) encs →
  parse_class_file
    (header m1 m2 M1 M2 k1 k2 ++ concat encs.*1
     ++ [a1; a2; t1; t2; s1; s2; x00; x00; x00; x00; x00; x00; x00; x00] ++ rest)
  = Return {| version := (be_to_Z [M1; M2], be_to_Z [m1; m2]);
              constant_pool := encs.*2;
              methods := Some [];
              attributes := Some [];
              access_flags := parse_flags (be_to_Z [a1; a2]) CLASS_ACCESS_FLAGS;
              this_class := be_to_Z [t1; t2];
              super_class := be_to_Z [s1; s2] |}.
Proof.
  intros Hlen Hencs. unfold parse_class_file, on_bytes.
  rewrite parse_class_file_stream_header.
  rewrite (bind_Return _ _ _ _ _ (parse_constant_pool_encoded_nat _ _ _ Hlen Hencs)).
  unfold after_constant_pool. cbn [app]. run_reads.
  unfold parse_interfaces. rewrite for_range_zero. run_reads.
  unfold parse_fields. rewrite for_range_zero. run_reads.
  rewrite for_range_zero. run_reads.
  rewrite parse_attributes_zero. reflexivity.
Qed.

Lemma class_without_members_witness :
  @parse_class_file jvms
    (header x00 x03 x00 x34 x00 x00 ++ concat ([] : list (list byte * pyval)).*1
     ++ [x00; x01; x00; x07; x00; x09; x00; x00; x00; x00; x00; x00; x00; x00]
     ++ [xff])
  = Return {| version := (52, 3);
              constant_pool := [];
              methods := Some [];
              attributes := Some [];
              access_flags := ["ACC_PUBLIC"]%string;
              this_class := 7;
              super_class := 9 |}.
Proof.
  apply (@class_without_members jvms x00 x03 x00 x34 x00 x00 x00 x01 x00 x07 x00 x09
           [] [xff]); [reflexivity|apply Forall_nil_2].
Defined.

(** ** The layout of the constant-pool entries *)

Section layouts.
Context {consts : jvmconsts}.

Ltac layout Ht :=
  intros rest; unfold parse_cp_info, parse_f4; change (parse_uint 4) with parse_i4;
  cbn [app]; run_reads; rewrite Ht; run_reads; reflexivity.

(** X3. What each kind of entry is read from and decoded to: after the
    tag byte, two 16-bit indices (Methodref, Fieldref, NameAndType,
    InvokeDynamic), one (Class, String), an 8-bit kind and a 16-bit index
    (MethodHandle), a 32-bit value (Integer, Float) or a 16-bit length and
    that many bytes (Utf8).  The entry is a dict of the fields read and of
    the name of the tag, and the bytes after the entry are left in the
    stream. *)
Theorem cp_info_layouts (t a1 a2 b1 b2 : byte) (bytes : list byte) :
  (Constant_value (be_to_Z [t]) = Some CONSTANT_Methodref →
     encodes parse_cp_info [t; a1; a2; b1; b2]
       (VDict (<["tag" := VStr "CONSTANT_Methodref"]>
                 (<["class_index" := VInt (be_to_Z [a1; a2])]>
                    (<["name_and_type_index" := VInt (be_to_Z [b1; b2])]> ∅)))))
  ∧ (Constant_value (be_to_Z [t]) = Some CONSTANT_Fieldref →
       encodes parse_cp_info [t; a1; a2; b1; b2]
         (VDict (<["tag" := VStr "CONSTANT_Fieldref"]>
                   (<["class_index" := VInt (be_to_Z [a1; a2])]>
                      (<["name_and_type_index" := VInt (be_to_Z [b1; b2])]> ∅)))))
  ∧ (Constant_value (be_to_Z [t]) = Some CONSTANT_NameAndType →
       encodes parse_cp_info [t; a1; a2; b1; b2]
         (VDict (<["tag" := VStr "CONSTANT_NameAndType"]>
                   (<["name_index" := VInt (be_to_Z [a1; a2])]>
                      (<["descriptor_index" := VInt (be_to_Z [b1; b2])]> ∅)))))
  ∧ (Constant_value (be_to_Z [t]) = Some CONSTANT_InvokeDynamic →
       encodes parse_cp_info [t; a1; a2; b1; b2]
         (VDict (<["tag" := VStr "CONSTANT_InvokeDynamic"]>
                   (<["bootstrap_method_attr_index" := VInt (be_to_Z [a1; a2])]>
                      (<["name_and_type_index" := VInt (be_to_Z [b1; b2])]> ∅)))))
  ∧ (Constant_value (be_to_Z [t]) = Some CONSTANT_Class →
       encodes parse_cp_info [t; a1; a2]
         (VDict (<["tag" := VStr "CONSTANT_Class"]>
                   (<["name_index" := VInt (be_to_Z [a1; a2])]> ∅))))
  ∧ (Constant_value (be_to_Z [t]) = Some CONSTANT_String →
       encodes parse_cp_info [t; a1; a2]
         (VDict (<["tag" := VStr "CONSTANT_String"]>
                   (<["string_index" := VInt (be_to_Z [a1; a2])]> ∅))))
  ∧ (Constant_value (be_to_Z [t]) = Some CONSTANT_MethodHandle →
       encodes parse_cp_info [t; a1; b1; b2]
         (VDict (<["tag" := VStr "CONSTANT_MethodHandle"]>
                   (<["reference_kind" := VInt (be_to_Z [a1])]>
                      (<["reference_index" := VInt (be_to_Z [b1; b2])]> ∅)))))
  ∧ (Constant_value (be_to_Z [t]) = Some CONSTANT_Integer →
       encodes parse_cp_info [t; a1; a2; b1; b2]
         (VDict (<["tag" := VStr "CONSTANT_Integer"]>
                   (<["bytes" := VInt (be_to_Z [a1; a2; b1; b2])]> ∅))))
  ∧ (Constant_value (be_to_Z [t]) = Some CONSTANT_Float →
       encodes parse_cp_info [t; a1; a2; b1; b2]
         (VDict (<["tag" := VStr "CONSTANT_Float"]>
                   (<["bytes" := VFloat (be_to_Z [a1; a2; b1; b2])]> ∅))))
  ∧ (Constant_value (be_to_Z [t]) = Some CONSTANT_Utf8 →
       Z.of_nat (length bytes) = be_to_Z [a1; a2] →
       encodes parse_cp_info ([t; a1; a2] ++ bytes)
         (VDict (<["tag" := VStr "CONSTANT_Utf8"]> (<["bytes" := VBytes bytes]> ∅)))).
Proof.
  repeat split; intros Ht; try (layout Ht).
  intros Hlen. by apply encodes_Utf8.
Qed.

End layouts.

Lemma cp_info_layouts_witness :
  encodes (@parse_cp_info jvms) [x0c; x00; x05; x00; x06]
    (VDict (<["tag" := VStr "CONSTANT_NameAndType"]>
              (<["name_index" := VInt 5]> (<["descriptor_index" := VInt 6]> ∅)))).
Proof.
  apply (proj1 (proj2 (proj2 (@cp_info_layouts jvms x0c x00 x05 x00 x06 [])))).
  reflexivity.
Defined.

(** ** What the pool decoder returns *)

Lemma parse_uint_Return w (f : list byte) v f' :
  parse_uint w f = Return (v, f') → 0 ≤ v < 256 ^ Z.of_nat w.
Proof.
  unfold parse_uint. case_decide as Hw; intros [= <- _].
  pose proof (be_to_Z_bounds (take w f)) as Hb.
  rewrite length_take, Nat.min_l in Hb by lia. done.
Qed.

Lemma read_Return_length n (f bs f' : list byte) :
  read n f = Return (bs, f') → 0 ≤ n → Z.of_nat (length bs) ≤ n.
Proof.
  unfold read. case_decide; [lia|]. intros [= <- _] _.
  rewrite length_take. lia.
Qed.

Lemma iterM_appending_Forall {A} (P : A → Prop) (m : M A) n acc f out f' :
  (∀ g x g', m g = Return (x, g') → P x) →
  Forall P acc →
  iterM n (appending m) acc f = Return (out, f') →
  Forall P out.
Proof.
  intros Hm. revert acc f. induction n as [|n IH]; intros acc f Hacc; simpl.
  - by intros [= <- _].
  - intros H. apply bind_Return_inv in H as (acc' & g & Happ & H).
    unfold appending in Happ.
    apply bind_Return_inv in Happ as (x & g' & Hx & [= <- <-]).
    eapply IH; [|exact H]. apply Forall_app. split; [done|].
    apply Forall_cons. split; [by eapply Hm|apply Forall_nil_2].
Qed.

Section pool_invariant.
Context {consts : jvmconsts}.

Ltac entry_ok c :=
  eexists _, c; split; [reflexivity|]; split; [reflexivity|];
  cbn [cp_info_fields_ok]; repeat split; eauto.

Ltac field_bounds :=
  eexists; split; [reflexivity|];
  repeat match goal with
         | Hl : parse_uint ?w _ = Return (_, _) |- _ =>
             apply parse_uint_Return in Hl; change (256 ^ Z.of_nat w) with 65536 in Hl
         end;
  repeat match goal with
         | Hr : read _ _ = Return _ |- _ => apply read_Return_length in Hr; [|lia]
         end;
  lia.

Lemma parse_cp_info_ok (f : list byte) e f' :
  parse_cp_info f = Return (e, f') → cp_info_ok e.
Proof.
  unfold parse_cp_info, parse_f4, parse_i1, parse_i2, parse_i4. intros H.
  apply bind_Return_inv in H as (tag & g & _ & H).
  destruct (Constant_value tag) as [c|]; [|discriminate].
  apply bind_Return_inv in H as (d & g' & Hd & [= <- _]).
  destruct c; try discriminate;
    repeat (apply bind_Return_inv in Hd as (? & ? & ?E & Hd));
    injection Hd as <- _.
  - entry_ok CONSTANT_Methodref.
  - entry_ok CONSTANT_Class; field_bounds.
  - entry_ok CONSTANT_NameAndType; field_bounds.
  - entry_ok CONSTANT_Utf8; field_bounds.
  - entry_ok CONSTANT_Fieldref.
  - entry_ok CONSTANT_String.
  - entry_ok CONSTANT_InvokeDynamic.
  - entry_ok CONSTANT_MethodHandle.
  - apply bind_Return_inv in E as (bits & ? & _ & [= <- _]).
    entry_ok CONSTANT_Float.
  - entry_ok CONSTANT_Integer.
Qed.

Lemma parse_constant_pool_Forall (K : Z) (f : list byte) pool f' :
  parse_constant_pool K f = Return (pool, f') → Forall cp_info_ok pool.
Proof.
  rewrite parse_constant_pool_appending. unfold for_range.
  apply iterM_appending_Forall; [|apply Forall_nil_2].
  intros g x g'. apply parse_cp_info_ok.
Qed.

(** X4. Every entry of a pool that [parse_constant_pool] returns is a
    dict whose [tag] names one of the ten kinds that have a layout; it has
    a [name_index], a 16-bit number, exactly when it is a Class or a
    NameAndType entry, and its [bytes] field is a byte string, shorter
    than 65536, exactly when it is a Utf8 entry (a number for Integer and
    Float, and absent otherwise). *)
Theorem parse_constant_pool_ok (K : Z) (f : list byte) pool f' :
  parse_constant_pool K f = Return (pool, f') → Forall cp_info_ok pool.
Proof. apply parse_constant_pool_Forall. Qed.

End pool_invariant.

Lemma parse_constant_pool_ok_witness : Forall cp_info_ok Main_pool.*2.
Proof.
  apply (@parse_constant_pool_ok jvms 3 (concat Main_pool.*1) Main_pool.*2 []).
  reflexivity.
Defined.

(** ** Names resolved in a decoded pool *)

Lemma py_index_elem_of {A} (l : list A) (i : Z) x :
  py_index l i = Return x → x ∈ l.
Proof.
  unfold py_index. repeat case_decide; try discriminate;
    destruct (l !! _) eqn:E; try discriminate; intros [= <-];
    by eapply list_elem_of_lookup_2.
Qed.

Lemma cp_info_ok_name_index (e : pyval) (v : pyval) :
  cp_info_ok e → py_item e "name_index" = Return v →
  ∃ (d : dict) n,
    e = VDict d ∧ v = VInt n ∧ d !! "name_index" = Some (VInt n)
    ∧ (d !! "tag" = Some (VStr "CONSTANT_Class")
       ∨ d !! "tag" = Some (VStr "CONSTANT_NameAndType")).
Proof.
  intros (d & c & -> & Htag & Hc). cbn [py_item].
  destruct (d !! "name_index") as [w|] eqn:Hw; [|discriminate]. intros [= <-].
  destruct c; cbn [cp_info_fields_ok] in Hc; try (destruct Hc; congruence).
  - destruct Hc as [(n & Hn & _) _]. exists d, n. rewrite Hn in Hw.
    injection Hw as <-. repeat split; [done|by left].
  - destruct Hc as [(n & Hn & _) _]. exists d, n. rewrite Hn in Hw.
    injection Hw as <-. repeat split; [done|by right].
Qed.

Lemma cp_info_ok_bytes (e : pyval) (b : list byte) :
  cp_info_ok e → py_item e "bytes" = Return (VBytes b) →
  ∃ d : dict,
    e = VDict d ∧ d !! "bytes" = Some (VBytes b)
    ∧ d !! "tag" = Some (VStr "CONSTANT_Utf8").
Proof.
  intros (d & c & -> & Htag & Hc). cbn [py_item].
  destruct (d !! "bytes") as [w|] eqn:Hw; [|discriminate]. intros [= ->].
  destruct c; cbn [cp_info_fields_ok] in Hc; try done;
    try (destruct Hc as [H1 H2]; try destruct H1 as (? & H1); congruence).
  by exists d.
Qed.

(** X5. In a class whose pool came out of the pool decoder,
    [get_name_of_class] returns a name exactly when the entry at the
    index (counted from 1, or from the end of the pool when the index is
    0 or negative) is a Class or a NameAndType entry, the entry at its
    [name_index] (counted likewise) is a Utf8 entry, and the bytes of that
    entry are well-formed UTF-8; the name is then their text.  The kind
    of the first entry is not checked, and [get_name_of_member] is the
    same function. *)
Theorem get_name_of_class_decoded (clazz : JVMClass) (class_index : Z) (name : string) :
  Forall cp_info_ok (constant_pool clazz) →
  (get_name_of_class clazz class_index = Return name ↔
   ∃ (dc du : dict) (n : Z) (b : list byte),
     py_index (constant_pool clazz) (class_index - 1) = Return (VDict dc)
     ∧ (dc !! "tag" = Some (VStr "CONSTANT_Class")
        ∨ dc !! "tag" = Some (VStr "CONSTANT_NameAndType"))
     ∧ dc !! "name_index" = Some (VInt n)
     ∧ py_index (constant_pool clazz) (n - 1) = Return (VDict du)
     ∧ du !! "tag" = Some (VStr "CONSTANT_Utf8")
     ∧ du !! "bytes" = Some (VBytes b)
     ∧ utf8_valid (Byte.to_N <$> b) = true
     ∧ name = string_of_list_byte b)
  ∧ get_name_of_member clazz class_index = get_name_of_class clazz class_index.
Proof.
  intros Hpool. split; [|reflexivity]. split.
  - unfold get_name_of_class, obind. intros H.
    destruct (py_index _ (class_index - 1)) as [c| |] eqn:Ec; try discriminate.
    destruct (py_item c "name_index") as [v| |] eqn:En; try discriminate.
    assert (cp_info_ok c) as Hc
      by (eapply Forall_forall; [exact Hpool|by eapply py_index_elem_of]).
    destruct (cp_info_ok_name_index c v Hc En) as (dc & n & -> & -> & Hn & Htag).
    cbn [py_index_pred] in H.
    destruct (py_index _ (n - 1)) as [u| |] eqn:Eu; try discriminate.
    destruct (py_item u "bytes") as [[| |b| | |]| |] eqn:Eb; try discriminate.
    assert (cp_info_ok u) as Hu
      by (eapply Forall_forall; [exact Hpool|by eapply py_index_elem_of]).
    destruct (cp_info_ok_bytes u b Hu Eb) as (du & -> & Hb & Htag').
    cbn [decode_utf8] in H.
    destruct (utf8_valid (Byte.to_N <$> b)) eqn:Hvalid; try discriminate.
    injection H as <-. by exists dc, du, n, b.
  - intros (dc & du & n & b & Ec & _ & Hn & Eu & _ & Hb & Hvalid & ->).
    unfold get_name_of_class, obind. rewrite Ec. cbn [py_item]. rewrite Hn.
    cbn [py_index_pred]. rewrite Eu. cbn [py_item]. rewrite Hb.
    cbn [decode_utf8]. by rewrite Hvalid.
Qed.

Lemma Main_pool_ok : Forall cp_info_ok Main_pool.*2.
Proof.
  apply (@parse_constant_pool_Forall jvms 3 (concat Main_pool.*1) Main_pool.*2 []).
  reflexivity.
Qed.

Lemma get_name_of_class_decoded_witness :
  ∃ (dc du : dict) (n : Z) (b : list byte),
    py_index (constant_pool Main_clazz) (2 - 1) = Return (VDict dc)
    ∧ (dc !! "tag" = Some (VStr "CONSTANT_Class")
       ∨ dc !! "tag" = Some (VStr "CONSTANT_NameAndType"))
    ∧ dc !! "name_index" = Some (VInt n)
    ∧ py_index (constant_pool Main_clazz) (n - 1) = Return (VDict du)
    ∧ du !! "tag" = Some (VStr "CONSTANT_Utf8")
    ∧ du !! "bytes" = Some (VBytes b)
    ∧ utf8_valid (Byte.to_N <$> b) = true
    ∧ "Main"%string = string_of_list_byte b.
Proof.
  apply (proj1 (proj1 (get_name_of_class_decoded Main_clazz 2 "Main" Main_pool_ok))).
  reflexivity.
Defined.

(** ** The text of a name *)

Lemma cont_above (x : N) : (192 ≤ x)%N → cont x = false.
Proof.
  intros Hx. unfold cont. apply andb_false_iff. right. apply N.leb_gt. lia.
Qed.

Lemma between_above (lo hi x : N) : (hi < 192)%N → (192 ≤ x)%N → between lo hi x = false.
Proof.
  intros Hhi Hx. unfold between. apply andb_false_iff. right. apply N.leb_gt. lia.
Qed.

Lemma between_outside (lo hi x : N) : (x < lo ∨ hi < x)%N → between lo hi x = false.
Proof.
  intros Hx. unfold between. apply andb_false_iff.
  destruct Hx; [left|right]; apply N.leb_gt; lia.
Qed.

Ltac kill_utf8 Hx :=
  lazymatch type of Hx with
  | (192 ≤ ?x)%N ∧ _ =>
      rewrite ?(cont_above x (proj1 Hx)),
              ?(between_above 160 191 x eq_refl (proj1 Hx)),
              ?(between_above 128 159 x eq_refl (proj1 Hx)),
              ?(between_above 144 191 x eq_refl (proj1 Hx)),
              ?(between_above 128 143 x eq_refl (proj1 Hx)),
              ?andb_false_r, ?andb_false_l
  end;
  try reflexivity.

Lemma utf8_valid_never (x : N) (post : list N) (n : nat) :
  never_in_utf8 x →
  ∀ pre : list N, (length pre ≤ n)%nat → utf8_valid (pre ++ x :: post) = false.
Proof.
  intros Hbad.
  assert ((192 ≤ x)%N ∧ (x < 194 ∨ 244 < x)%N) as Hx by (unfold never_in_utf8 in Hbad; lia).
  induction n as [|n IH]; intros pre Hlen.
  - destruct pre; [|simpl in Hlen; lia]. cbn [app utf8_valid].
    replace (x <? 128)%N with false by (symmetry; apply N.ltb_ge; lia).
    rewrite !between_outside by lia. reflexivity.
  - destruct pre as [|b0 r0]; [apply (IH []); simpl; lia|].
    cbn [app utf8_valid]. simpl in Hlen.
    destruct (b0 <? 128)%N; [apply IH; lia|].
    destruct (between 194 223 b0).
    { destruct r0 as [|b1 r1]; cbn [app]; [by kill_utf8 Hx|].
      rewrite IH by (simpl in Hlen; lia). by kill_utf8 Hx. }
    destruct (between 224 239 b0).
    { destruct r0 as [|b1 [|b2 r2]]; cbn [app].
      - destruct post as [|p post]; [done|].
        repeat case_match; by kill_utf8 Hx.
      - by kill_utf8 Hx.
      - rewrite IH by (simpl in Hlen; lia). by kill_utf8 Hx. }
    destruct (between 240 244 b0); [|done].
    destruct r0 as [|b1 [|b2 [|b3 r3]]]; cbn [app].
    + destruct post as [|p [|p' post]]; try done.
      repeat case_match; by kill_utf8 Hx.
    + destruct post as [|p post]; [done|]. by kill_utf8 Hx.
    + by kill_utf8 Hx.
    + rewrite IH by (simpl in Hlen; lia). by kill_utf8 Hx.
Qed.

Lemma utf8_valid_ascii (bs : list N) :
  Forall (λ b, (b < 128)%N) bs → utf8_valid bs = true.
Proof.
  induction 1 as [|b bs Hb _ IH]; [done|]. cbn [utf8_valid].
  by replace (b <? 128)%N with true by (symmetry; by apply N.ltb_lt).
Qed.

(** X6. When the chain from a class index ends in an entry whose bytes
    are all ASCII, [get_name_of_class] returns those bytes as text.  When
    the bytes hold, anywhere, one of C0, C1 or F5 to FF, it fails with
    [UnicodeDecodeError]: the decoder is the strict UTF-8 decoder, which
    has no place for these bytes (C0 80 is how a class file writes the
    character U+0000). *)
Theorem get_name_of_class_text (clazz : JVMClass) (class_index n : Z)
    (c u : pyval) (bs : list byte) :
  py_index (constant_pool clazz) (class_index - 1) = Return c →
  py_item c "name_index" = Return (VInt n) →
  py_index (constant_pool clazz) (n - 1) = Return u →
  py_item u "bytes" = Return (VBytes bs) →
  (Forall (λ b, (Byte.to_N b < 128)%N) bs →
     get_name_of_class clazz class_index = Return (string_of_list_byte bs))
  ∧ (∀ pre x post, bs = pre ++ x :: post → never_in_utf8 (Byte.to_N x) →
       get_name_of_class clazz class_index = Raise UnicodeDecodeError).
Proof.
  intros Ec En Eu Eb.
  assert (get_name_of_class clazz class_index = decode_utf8 (VBytes bs)) as ->.
  { unfold get_name_of_class, obind. rewrite Ec, En. cbn [py_index_pred].
    by rewrite Eu, Eb. }
  cbn [decode_utf8]. split.
  - intros Hascii. rewrite utf8_valid_ascii; [done|].
    by apply Forall_fmap.
  - intros pre x post -> Hx. rewrite fmap_app, fmap_cons.
    by rewrite (utf8_valid_never _ _ (length (Byte.to_N <$> pre)) Hx).
Qed.

Lemma get_name_of_class_text_witness :
  get_name_of_class nul_name_clazz 2 = Raise UnicodeDecodeError.
Proof.
  apply (proj2 (get_name_of_class_text nul_name_clazz 2 1 _ _ [xc0; x80]
                  eq_refl eq_refl eq_refl eq_refl) [] xc0 [x80] eq_refl).
  unfold never_in_utf8. simpl. lia.
Defined.

(** ** Attributes that are not decoded *)

Lemma AttributeInfoName_of_unknown (name : pyval) :
  (∀ t, name ≠ VBytes (AttributeInfoName_value t)) →
  AttributeInfoName_of name = Raise ValueError.
Proof.
  intros Hname. unfold AttributeInfoName_of.
  assert (∀ t, eq_bytes name (AttributeInfoName_value t) = false) as Hne.
  { intros t. destruct name; try done. cbn [eq_bytes].
    apply bool_decide_eq_false_2. intros ->. by apply (Hname t). }
  by rewrite !Hne.
Qed.

Lemma parse_attributes_first_Raise clazz (count : Z) (f : list byte) e :
  0 < count →
  parse_attribute clazz f = Raise e →
  parse_attributes clazz count f = Raise e.
Proof.
  intros Hcount He. rewrite parse_attributes_unfold.
  unfold parse_attributes_with, for_range.
  destruct (Z.to_nat count) as [|k] eqn:Ek; [lia|]. cbn [iterM].
  unfold bind, parse_attribute in *. by rewrite He.
Qed.

(** X7. An attribute whose name, the [bytes] of the pool entry at its
    name index, is none of BootstrapMethods, InnerClasses, SourceFile,
    Code and LineNumberTable stops the decoding of the attribute list
    with [ValueError], raised by the enumeration of attribute names once
    the length and the payload have been read; the payload is not looked
    at, and the [NotImplementedError] of the dispatch is never raised. *)
Theorem unknown_attribute_name clazz (count : Z) (n1 n2 l1 l2 l3 l4 : byte)
    (rest : list byte) (cp name : pyval) :
  0 < count →
  from_cp clazz (be_to_Z [n1; n2]) = Return cp →
  py_item cp "bytes" = Return name →
  (∀ t, name ≠ VBytes (AttributeInfoName_value t)) →
  parse_attributes clazz count ([n1; n2; l1; l2; l3; l4] ++ rest) = Raise ValueError.
Proof.
  intros Hcount Hcp Hname Hunknown. apply parse_attributes_first_Raise; [done|].
  unfold parse_attribute, parse_attribute_with. cbn [app].
  run_reads. unfold lift at 1. rewrite Hcp. cbv beta iota.
  unfold lift at 1. rewrite Hname. cbv beta iota.
  run_reads. unfold read.
  rewrite decide_False by (pose proof (be_to_Z_bounds [l1; l2; l3; l4]); lia).
  cbv beta iota. unfold lift, parse_attribute_info_with, obind.
  by rewrite AttributeInfoName_of_unknown.
Qed.

Lemma unknown_attribute_name_witness :
  parse_attributes nul_name_clazz 1 ([x00; x01; x00; x00; x00; x00] ++ [])
  = Raise ValueError.
Proof.
  eapply (unknown_attribute_name nul_name_clazz 1 x00 x01 x00 x00 x00 x00 []);
    [lia|reflexivity|reflexivity|].
  intros []; discriminate.
Defined.

(** X8. The name index of an attribute is resolved before its length is
    read: a name index of 0 fails with [AssertionError], one past the
    end of the pool with [IndexError], and one that leads to an entry
    without a [bytes] field with [KeyError], whatever follows the two
    bytes of the index. *)
Theorem attribute_name_index_errors clazz (count : Z) (n1 n2 : byte) (rest : list byte) :
  0 < count →
  (be_to_Z [n1; n2] = 0 →
     parse_attributes clazz count (n1 :: n2 :: rest)
     = Raise (AssertionError "Constant pool index must be positive"))
  ∧ (Z.of_nat (length (constant_pool clazz)) < be_to_Z [n1; n2] →
       parse_attributes clazz count (n1 :: n2 :: rest) = Raise IndexError)
  ∧ (∀ d : dict,
       from_cp clazz (be_to_Z [n1; n2]) = Return (VDict d) →
       d !! "bytes" = None →
       parse_attributes clazz count (n1 :: n2 :: rest) = Raise (KeyError (VStr "bytes"))).
Proof.
  intros Hcount.
  assert (∀ e, (lift (from_cp clazz (be_to_Z [n1; n2])) rest = Raise e
                ∨ ∃ cp, from_cp clazz (be_to_Z [n1; n2]) = Return cp
                        ∧ py_item cp "bytes" = Raise e) →
               parse_attributes clazz count (n1 :: n2 :: rest) = Raise e) as Hstep.
  { intros e He. apply parse_attributes_first_Raise; [done|].
    unfold parse_attribute, parse_attribute_with.
    rewrite (bind_Return _ _ _ _ _ (parse_i2_cons _ _ _)).
    destruct He as [He|(cp & Hcp & He)].
    - by rewrite (bind_Raise _ _ _ _ He).
    - unfold bind at 1, lift at 1. rewrite Hcp.
      unfold bind at 1, lift at 1. by rewrite He. }
  split; [|split].
  - intros Hz. apply Hstep. left. unfold lift, from_cp. rewrite Hz. done.
  - intros Hlen. apply Hstep. left. unfold lift, from_cp.
    rewrite decide_True by lia. by rewrite py_index_out_of_range by lia.
  - intros d Hcp Hd. apply Hstep. right. exists (VDict d). split; [done|].
    cbn [py_item]. by rewrite Hd.
Qed.

Lemma attribute_name_index_errors_witness :
  parse_attributes nul_name_clazz 1 [x00; x02]
  = Raise (KeyError (VStr "bytes")).
Proof.
  eapply (proj2 (proj2 (attribute_name_index_errors nul_name_clazz 1 x00 x02 []
                          ltac:(lia)))).
  - reflexivity.
  - reflexivity.
Defined.

(** ** The tables of the attribute payloads *)

Lemma iterM_ext {S} n (body1 body2 : S → M S) s (f : list byte) :
  (∀ s f, body1 s f = body2 s f) → iterM n body1 s f = iterM n body2 s f.
Proof.
  intros Hb. revert s f. induction n as [|n IH]; intros s f; [done|].
  cbn [iterM]. unfold bind. rewrite Hb.
  destruct (body2 s f) as [[a g]| |]; [apply IH|done..].
Qed.

(** A loop whose turn reads one record with [m] and appends it, run as
    many times as there are records in front of [rest]. *)
Lemma for_range_records {A B} (m : M B) (body : list B → M (list B))
    (bytes_of : A → list byte) (value_of : A → B) (n : Z)
    (records : list A) (rest : list byte) :
  (∀ acc f, body acc f = appending m acc f) →
  Forall (λ r, encodes m (bytes_of r) (value_of r)) records →
  Z.of_nat (length records) = n →
  for_range n body [] (concat (bytes_of <$> records) ++ rest)
  = Return (value_of <$> records, rest).
Proof.
  intros Hbody Hm <-. unfold for_range. rewrite Nat2Z.id.
  rewrite (iterM_ext _ _ _ _ _ Hbody).
  pose proof (iterM_appending_encoded m ((λ r, (bytes_of r, value_of r)) <$> records)
                [] rest) as H.
  rewrite length_fmap, <- !list_fmap_compose in H. apply H.
  by apply Forall_fmap.
Qed.

(** The same loop when the stream ends after fewer records than the count
    says. *)
Lemma for_range_records_short {A B} (m : M B) (body : list B → M (list B))
    (bytes_of : A → list byte) (value_of : A → B) (n : Z)
    (records : list A) (tail : list byte) e :
  (∀ acc f, body acc f = appending m acc f) →
  Forall (λ r, encodes m (bytes_of r) (value_of r)) records →
  Z.of_nat (length records) < n →
  m tail = Raise e →
  for_range n body [] (concat (bytes_of <$> records) ++ tail) = Raise e.
Proof.
  intros Hbody Hm Hlen Htail. unfold for_range.
  rewrite (iterM_ext _ _ _ _ _ Hbody).
  replace (Z.to_nat n)
    with (length ((λ r, (bytes_of r, value_of r)) <$> records)
          + S (Z.to_nat n - S (length records)))%nat
    by (rewrite length_fmap; lia).
  pose proof (iterM_appending_next m ((λ r, (bytes_of r, value_of r)) <$> records)
                (Z.to_nat n - S (length records)) [] tail) as H.
  rewrite <- !list_fmap_compose in H. etrans; [apply H|].
  - by apply Forall_fmap.
  - by apply bind_Raise.
Qed.

Section tables.
Variable clazz : JVMClass.

(** X9. A LineNumberTable payload that holds a 16-bit count and that
    many four-byte records is decoded to the table of their (start_pc,
    line_number) pairs, in the order of the payload; when the payload
    ends after fewer records than the count says, with fewer than four
    bytes left over, the decoding fails with [TruncatedInput]. *)
Theorem LineNumberTable_records (c1 c2 : byte)
    (records : list ((byte * byte) * (byte * byte))) (rest : list byte) :
  (Z.of_nat (length records) = be_to_Z [c1; c2] →
     parse_attribute_info_LineNumberTable clazz
       ([c1; c2] ++ concat (line_number_bytes <$> records) ++ rest)
     = Return (VDict (<["line_number_table" := VList (line_number_dict <$> records)]>
                        (<["line_number_table_length" := VInt (be_to_Z [c1; c2])]> ∅)),
               rest))
  ∧ (Z.of_nat (length records) < be_to_Z [c1; c2] → (length rest < 4)%nat →
       parse_attribute_info_LineNumberTable clazz
         ([c1; c2] ++ concat (line_number_bytes <$> records) ++ rest)
       = Raise TruncatedInput).
Proof.
  set (m := (start_pc <~ parse_i2 ;; line_number <~ parse_i2 ;;
             ret (VDict (<["line_number" := VInt line_number]>
                           (<["start_pc" := VInt start_pc]> (∅ : dict))))) : M pyval).
  assert (Forall (λ r, encodes m (line_number_bytes r) (line_number_dict r)) records)
    as Hm.
  { apply Forall_forall. intros [[a b] [c d]] _ f.
    unfold m, line_number_bytes. cbn [app fst snd]. run_reads. reflexivity. }
  unfold parse_attribute_info_LineNumberTable. cbn [app]. split.
  - intros Hlen. rewrite (bind_Return _ _ _ _ _ (parse_i2_cons _ _ _)).
    erewrite bind_Return; [reflexivity|].
    apply (for_range_records m); [|done..].
    intros acc f. unfold appending, m, bind, ret.
    by repeat (destruct (parse_i2 _) as [[? ?]| |]).
  - intros Hlen Hrest. rewrite (bind_Return _ _ _ _ _ (parse_i2_cons _ _ _)).
    apply bind_Raise, (for_range_records_short m _ _ line_number_dict); [|done..|].
    + intros acc f. unfold appending, m, bind, ret.
      by repeat (destruct (parse_i2 _) as [[? ?]| |]).
    + do 4 (destruct rest as [|? rest]; [reflexivity|]). simpl in Hrest. lia.
Qed.

End tables.

Lemma LineNumberTable_records_witness :
  parse_attribute_info_LineNumberTable Main_clazz
    ([x00; x02] ++ concat (line_number_bytes <$>
                             [((x00, x00), (x00, x07)); ((x00, x04), (x00, x08))])
     ++ [xff])
  = Return (VDict (<["line_number_table" :=
                       VList (line_number_dict <$>
                                [((x00, x00), (x00, x07)); ((x00, x04), (x00, x08))])]>
                     (<["line_number_table_length" := VInt 2]> ∅)),
            [xff]).
Proof.
  apply (proj1 (LineNumberTable_records Main_clazz x00 x02
                  [((x00, x00), (x00, x07)); ((x00, x04), (x00, x08))] [xff])).
  reflexivity.
Defined.

Section more_tables.
Variable clazz : JVMClass.

(** X10. An InnerClasses payload that holds a 16-bit count and that many
    eight-byte records is decoded to the list of their four 16-bit
    fields, in the order of the payload; when the payload ends after
    fewer records than the count says, with fewer than eight bytes left
    over, the decoding fails with [TruncatedInput]. *)
Theorem InnerClasses_records (c1 c2 : byte)
    (records : list (((byte * byte) * (byte * byte)) * ((byte * byte) * (byte * byte))))
    (rest : list byte) :
  (Z.of_nat (length records) = be_to_Z [c1; c2] →
     parse_attribute_info_InnerClasses clazz
       ([c1; c2] ++ concat (inner_class_bytes <$> records) ++ rest)
     = Return (VDict (<["classes" := VList (inner_class_dict <$> records)]>
                        (<["number_of_classes" := VInt (be_to_Z [c1; c2])]> ∅)),
               rest))
  ∧ (Z.of_nat (length records) < be_to_Z [c1; c2] → (length rest < 8)%nat →
       parse_attribute_info_InnerClasses clazz
         ([c1; c2] ++ concat (inner_class_bytes <$> records) ++ rest)
       = Raise TruncatedInput).
Proof.
  set (m := (inner_class_info_index <~ parse_i2 ;;
             outer_class_info_index <~ parse_i2 ;;
             inner_name_index <~ parse_i2 ;;
             inner_class_access_flags <~ parse_i2 ;;
             ret (VDict (<["inner_class_access_flags" := VInt inner_class_access_flags]>
                           (<["inner_name_index" := VInt inner_name_index]>
                              (<["outer_class_info_index" := VInt outer_class_info_index]>
                                 (<["inner_class_info_index" := VInt inner_class_info_index]>
                                    (∅ : dict)))))))
            : M pyval).
  assert (Forall (λ r, encodes m (inner_class_bytes r) (inner_class_dict r)) records)
    as Hm.
  { apply Forall_forall. intros [[[a b] [c d]] [[e g] [h i]]] _ f.
    unfold m, inner_class_bytes. cbn [app fst snd]. run_reads. reflexivity. }
  assert (∀ acc f,
            (inner_class_info_index <~ parse_i2 ;;
             outer_class_info_index <~ parse_i2 ;;
             inner_name_index <~ parse_i2 ;;
             inner_class_access_flags <~ parse_i2 ;;
             ret (acc ++
                  [VDict (<["inner_class_access_flags" := VInt inner_class_access_flags]>
                            (<["inner_name_index" := VInt inner_name_index]>
                               (<["outer_class_info_index" := VInt outer_class_info_index]>
                                  (<["inner_class_info_index" := VInt inner_class_info_index]>
                                     (∅ : dict)))))])) f
            = appending m acc f) as Hbody.
  { intros acc f. unfold appending, m, bind, ret.
    by repeat (destruct (parse_i2 _) as [[? ?]| |]). }
  unfold parse_attribute_info_InnerClasses. cbn [app]. split.
  - intros Hlen. rewrite (bind_Return _ _ _ _ _ (parse_i2_cons _ _ _)).
    erewrite bind_Return; [reflexivity|].
    by apply (for_range_records m).
  - intros Hlen Hrest. rewrite (bind_Return _ _ _ _ _ (parse_i2_cons _ _ _)).
    apply bind_Raise, (for_range_records_short m _ _ inner_class_dict); [done..|].
    do 8 (destruct rest as [|? rest]; [reflexivity|]). simpl in Hrest. lia.
Qed.

(** X11. A BootstrapMethods payload that holds a 16-bit count and that
    many methods, each a 16-bit reference, a 16-bit argument count and
    that many 16-bit arguments, is decoded to the list of these methods
    with their arguments, in the order of the payload. *)
Theorem BootstrapMethods_records (c1 c2 : byte)
    (records : list ((byte * byte) * (byte * byte) * list (byte * byte)))
    (rest : list byte) :
  Z.of_nat (length records) = be_to_Z [c1; c2] →
  Forall (λ r, Z.of_nat (length r.2) = be_to_Z [r.1.2.1; r.1.2.2]) records →
  parse_attribute_info_BootstrapMethods clazz
    ([c1; c2] ++ concat (bootstrap_method_bytes <$> records) ++ rest)
  = Return (VDict (<["bootstrap_methods" := VList (bootstrap_method_entry <$> records)]>
                     (<["num_bootstrap_methods" := VInt (be_to_Z [c1; c2])]> ∅)),
            rest).
Proof.
  intros Hlen Hargs.
  set (arg := (a <~ parse_i2 ;; ret (VInt a)) : M pyval).
  set (m := (bootstrap_method_ref <~ parse_i2 ;;
             num_bootstrap_arguments <~ parse_i2 ;;
             bootstrap_arguments <~
               for_range num_bootstrap_arguments
                 (λ bootstrap_arguments,
                    a <~ parse_i2 ;; ret (bootstrap_arguments ++ [VInt a])) [] ;;
             ret (VDict (<["bootstrap_arguments" := VList bootstrap_arguments]>
                           (<["num_bootstrap_arguments" := VInt num_bootstrap_arguments]>
                              (<["bootstrap_method_ref" := VInt bootstrap_method_ref]>
                                 (∅ : dict))))))
            : M pyval).
  assert (Forall (λ r, encodes m (bootstrap_method_bytes r) (bootstrap_method_entry r))
            records) as Hm.
  { eapply Forall_impl; [exact Hargs|].
    intros [[[r1 r2] [n1 n2]] args] Hr f. cbn [fst snd] in Hr.
    unfold m, bootstrap_method_bytes. cbn [fst snd]. rewrite <- app_assoc. cbn [app].
    do 2 rewrite (bind_Return _ _ _ _ _ (parse_i2_cons _ _ _)).
    erewrite bind_Return; [reflexivity|].
    apply (for_range_records arg _ u2_bytes (λ a, VInt (be_to_Z (u2_bytes a))));
      [|apply Forall_forall|done].
    - intros acc g. unfold appending, arg, bind, ret.
      by destruct (parse_i2 g) as [[? ?]| |].
    - intros [a b] _ g. unfold arg, u2_bytes. cbn [app fst snd].
      run_reads. reflexivity. }
  unfold parse_attribute_info_BootstrapMethods. cbn [app].
  rewrite (bind_Return _ _ _ _ _ (parse_i2_cons _ _ _)).
  erewrite bind_Return; [reflexivity|].
  apply (for_range_records m); [|done..].
  intros acc f. unfold appending, m, bind, ret.
  destruct (parse_i2 f) as [[? ?]| |]; [|done..].
  destruct (parse_i2 _) as [[? ?]| |]; [|done..].
  by destruct (for_range _ _ _ _) as [[? ?]| |].
Qed.

End more_tables.

Lemma InnerClasses_records_witness :
  parse_attribute_info_InnerClasses Main_clazz
    ([x00; x02] ++ concat (inner_class_bytes <$>
                             [(((x00, x02), (x00, x00)), ((x00, x01), (x00, x09)))])
     ++ [x00; x05; x00])
  = Raise TruncatedInput.
Proof.
  apply (proj2 (InnerClasses_records Main_clazz x00 x02
                  [(((x00, x02), (x00, x00)), ((x00, x01), (x00, x09)))]
                  [x00; x05; x00])).
  - reflexivity.
  - simpl. lia.
Defined.

Lemma BootstrapMethods_records_witness :
  parse_attribute_info_BootstrapMethods Main_clazz
    ([x00; x02] ++ concat (bootstrap_method_bytes <$>
                             [((x00, x05), (x00, x02), [(x00, x07); (x00, x08)]);
                              ((x00, x06), (x00, x00), [])])
     ++ [])
  = Return (VDict (<["bootstrap_methods" :=
                       VList (bootstrap_method_entry <$>
                                [((x00, x05), (x00, x02), [(x00, x07); (x00, x08)]);
                                 ((x00, x06), (x00, x00), [])])]>
                     (<["num_bootstrap_methods" := VInt 2]> ∅)),
            []).
Proof.
  apply (BootstrapMethods_records Main_clazz x00 x02
           [((x00, x05), (x00, x02), [(x00, x07); (x00, x08)]);
            ((x00, x06), (x00, x00), [])] []).
  - reflexivity.
  - apply Forall_cons; split; [reflexivity|].
    apply Forall_cons; split; [reflexivity|apply Forall_nil_2].
Defined.

(** ** What the attribute decoder and the class assembler return *)

Lemma lift_Return_inv {A} (r : outcome A) (f : list byte) a f' :
  lift r f = Return (a, f') → r = Return a ∧ f' = f.
Proof. unfold lift. destruct r; intros [=]; by subst. Qed.

Lemma eq_bytes_true (v : pyval) (bs : list byte) :
  eq_bytes v bs = true → v = VBytes bs.
Proof.
  destruct v; try discriminate. cbn [eq_bytes]. intros H.
  by apply bool_decide_eq_true_1 in H as ->.
Qed.

Lemma AttributeInfoName_of_Return (v : pyval) (t : AttributeInfoName) :
  AttributeInfoName_of v = Return t → v = VBytes (AttributeInfoName_value t).
Proof.
  unfold AttributeInfoName_of. intros H.
  repeat case_match; try discriminate; injection H as <-; by apply eq_bytes_true.
Qed.

Lemma from_cp_Return clazz (index : Z) (entry : pyval) :
  from_cp clazz index = Return entry →
  0 < index ∧ constant_pool clazz !! Z.to_nat (index - 1) = Some entry.
Proof.
  unfold from_cp. case_decide as Hi; [|discriminate]. unfold py_index.
  case_decide as H0.
  - destruct (_ !! _) eqn:E; [|discriminate]. intros [= <-]. split; [lia|done].
  - case_decide; [lia|discriminate].
Qed.

Lemma parse_attribute_ok clazz (f : list byte) a f' :
  parse_attribute clazz f = Return (a, f') → attribute_ok (constant_pool clazz) a.
Proof.
  unfold parse_attribute, parse_attribute_with, parse_i2, parse_i4. intros H.
  apply bind_Return_inv in H as (index & g1 & Hi & H).
  apply bind_Return_inv in H as (entry & g2 & He & H).
  apply bind_Return_inv in H as (name & g3 & Hn & H).
  apply bind_Return_inv in H as (len & g4 & _ & H).
  apply bind_Return_inv in H as (bytes & g5 & _ & H).
  apply bind_Return_inv in H as (info & g6 & Hinfo & [= <- _]).
  apply lift_Return_inv in He as [He _]. apply lift_Return_inv in Hn as [Hn _].
  apply lift_Return_inv in Hinfo as [Hinfo _].
  apply from_cp_Return in He as [Hpos He].
  apply parse_uint_Return in Hi. change (256 ^ Z.of_nat 2) with 65536 in Hi.
  unfold parse_attribute_info_with, obind in Hinfo.
  destruct (AttributeInfoName_of name) as [t| |] eqn:Ht; try discriminate.
  apply AttributeInfoName_of_Return in Ht as ->.
  exists index, t, info, entry. repeat split; [lia..|done|done].
Qed.

Lemma parse_attributes_Forall clazz (count : Z) (f : list byte) attrs f' :
  parse_attributes clazz count f = Return (attrs, f') →
  Forall (attribute_ok (constant_pool clazz)) attrs
  ∧ length attrs = Z.to_nat count.
Proof.
  rewrite parse_attributes_unfold. unfold parse_attributes_with, for_range.
  change (λ attributes : list pyval,
            attribute <~ parse_attribute_with parse_attributes clazz ;;
            ret (attributes ++ [attribute]))
    with (appending (parse_attribute clazz)).
  intros H. split.
  - eapply iterM_appending_Forall; [|apply Forall_nil_2|exact H].
    intros g x g'. apply parse_attribute_ok.
  - by apply iterM_appending_length in H.
Qed.

(** X12. Every attribute that [parse_attributes] returns is a dict of a
    name index, a name and a payload, in which the name index is a
    16-bit number other than 0, the pool entry at it (counted from 1)
    has the name as its [bytes], and the name is one of the five names
    that have a sub-parser; and the list has as many attributes as the
    count says (none for a count of 0 or less). *)
Theorem parse_attributes_ok clazz (count : Z) (f : list byte) attrs f' :
  parse_attributes clazz count f = Return (attrs, f') →
  Forall (attribute_ok (constant_pool clazz)) attrs
  ∧ length attrs = Z.to_nat count.
Proof. apply parse_attributes_Forall. Qed.

Lemma parse_attributes_ok_witness :
  Forall (attribute_ok (constant_pool SourceFile_clazz_in_progress))
    [attribute_dict 3 (VBytes (list_byte_of_string "SourceFile"))
       (VDict (<["sourcefile_index" := VInt 1]> ∅))].
Proof.
  apply (parse_attributes_ok SourceFile_clazz_in_progress 1
           [x00; x03; x00; x00; x00; x02; x00; x01] _ []).
  reflexivity.
Defined.

Section class_invariant.
Context {consts : jvmconsts}.

Lemma parse_method_ok clazz (f : list byte) m f' :
  parse_method clazz f = Return (m, f') → method_ok (constant_pool clazz) m.
Proof.
  unfold parse_method, parse_i2. intros H.
  apply bind_Return_inv in H as (flags & g1 & _ & H).
  apply bind_Return_inv in H as (name_index & g2 & Hn & H).
  apply bind_Return_inv in H as (descriptor_index & g3 & Hd & H).
  apply bind_Return_inv in H as (count & g4 & _ & H).
  apply bind_Return_inv in H as (attrs & g5 & Ha & [= <- _]).
  apply parse_uint_Return in Hn, Hd. change (256 ^ Z.of_nat 2) with 65536 in *.
  apply parse_attributes_Forall in Ha as [Ha _].
  by exists flags, name_index, descriptor_index, attrs.
Qed.

Lemma parse_class_file_inv (file : list byte) (clazz : JVMClass) :
  parse_class_file file = Return clazz →
  take 4 file = [xca; xfe; xba; xbe]
  ∧ Forall cp_info_ok (constant_pool clazz)
  ∧ (∃ ms, methods clazz = Some ms ∧ Forall (method_ok (constant_pool clazz)) ms)
  ∧ (∃ attrs, attributes clazz = Some attrs
              ∧ Forall (attribute_ok (constant_pool clazz)) attrs)
  ∧ sublist (access_flags clazz) CLASS_ACCESS_FLAGS.*1
  ∧ 0 ≤ this_class clazz < 65536
  ∧ 0 ≤ super_class clazz < 65536
  ∧ 0 ≤ (version clazz).1 < 65536
  ∧ 0 ≤ (version clazz).2 < 65536.
Proof.
  unfold parse_class_file, on_bytes.
  destruct (parse_class_file_stream file) as [[c g]| |] eqn:H; try discriminate.
  intros [= ->]. unfold parse_class_file_stream, parse_i4, parse_i2 in H.
  apply bind_Return_inv in H as (magic & g0 & Hmagic & H).
  case_decide as Hhex; [discriminate|].
  apply bind_Return_inv in H as (v_minor & g1 & Hminor & H).
  apply bind_Return_inv in H as (v_major & g2 & Hmajor & H).
  apply bind_Return_inv in H as (count & g3 & _ & H).
  apply bind_Return_inv in H as (pool & g4 & Hpool & H).
  apply bind_Return_inv in H as (flags & g5 & _ & H).
  apply bind_Return_inv in H as (this & g6 & Hthis & H).
  apply bind_Return_inv in H as (super & g7 & Hsuper & H).
  apply bind_Return_inv in H as (icount & g8 & _ & H).
  apply bind_Return_inv in H as (interfaces & g9 & _ & H).
  apply bind_Return_inv in H as (fcount & g10 & _ & H).
  apply bind_Return_inv in H as (fields & g11 & _ & H).
  apply bind_Return_inv in H as (mcount & g12 & _ & H).
  apply bind_Return_inv in H as (ms & g13 & Hms & H).
  apply bind_Return_inv in H as (acount & g14 & _ & H).
  apply bind_Return_inv in H as (attrs & g15 & Hattrs & [= <- _]).
  cbn [constant_pool methods attributes access_flags this_class super_class version
       fst snd].
  apply parse_uint_Return in Hminor, Hmajor, Hthis, Hsuper.
  change (256 ^ Z.of_nat 2) with 65536 in *.
  repeat split; try lia.
  - apply hex_magic_inv in Hhex. unfold parse_uint in Hmagic.
    case_decide as Hlen; [discriminate|]. injection Hmagic as <- _.
    destruct file as [|b1 [|b2 [|b3 [|b4 file]]]]; try (simpl in Hlen; lia).
    by apply be_to_Z_magic_inv.
  - by eapply parse_constant_pool_Forall.
  - exists ms. split; [done|].
    eapply (iterM_appending_Forall _ (parse_method _)); [|apply Forall_nil_2|exact Hms].
    intros f x f'. apply parse_method_ok.
  - exists attrs. split; [done|]. by apply parse_attributes_Forall in Hattrs as [? _].
  - apply fmap_sublist, sublist_filter.
Qed.

(** X13. A class that [parse_class_file] returns came from a file that
    starts with CA FE BA BE; its methods and attributes are set (never
    [None]); every pool entry, method and attribute has the shape that
    its decoder gives it, with the attribute names resolved in the pool
    of the class; its access flags are names of the class flag table,
    in table order; and its version numbers, this_class and super_class
    are 16-bit numbers. *)
Theorem parse_class_file_ok (file : list byte) (clazz : JVMClass) :
  parse_class_file file = Return clazz →
  take 4 file = [xca; xfe; xba; xbe]
  ∧ Forall cp_info_ok (constant_pool clazz)
  ∧ (∃ ms, methods clazz = Some ms ∧ Forall (method_ok (constant_pool clazz)) ms)
  ∧ (∃ attrs, attributes clazz = Some attrs
              ∧ Forall (attribute_ok (constant_pool clazz)) attrs)
  ∧ sublist (access_flags clazz) CLASS_ACCESS_FLAGS.*1
  ∧ 0 ≤ this_class clazz < 65536
  ∧ 0 ≤ super_class clazz < 65536
  ∧ 0 ≤ (version clazz).1 < 65536
  ∧ 0 ≤ (version clazz).2 < 65536.
Proof. apply parse_class_file_inv. Qed.

End class_invariant.

Lemma parse_class_file_ok_witness :
  ∃ attrs, attributes two_bsm_clazz = Some attrs
           ∧ Forall (attribute_ok (constant_pool two_bsm_clazz)) attrs.
Proof.
  apply (@parse_class_file_ok jvms two_bsm_class_file two_bsm_clazz).
  vm_compute. reflexivity.
Defined.

(** ** The searches by name *)

Lemma filter_by_pool_name_cons pool key name x items :
  filter_by_pool_name pool key name (x :: items)
  = (b <~ pool_name pool key x ;;;
     kept <~ filter_by_pool_name pool key name items ;;;
     Return (if eq_bytes b name then x :: kept else kept)).
Proof.
  cbn [filter_by_pool_name]. unfold pool_name, obind.
  destruct (py_item x key) as [index| |]; try done.
  by destruct (py_index_pred pool index) as [entry| |].
Qed.

Lemma filter_by_pool_name_resolved pool key name items :
  Forall (λ x, ∃ b, pool_name pool key x = Return b) items →
  filter_by_pool_name pool key name items
  = Return (List.filter (pool_named pool key name) items).
Proof.
  induction 1 as [|x items (b & Hb) _ IH]; [done|].
  rewrite filter_by_pool_name_cons, Hb, IH. cbn [obind List.filter].
  by replace (pool_named pool key name x) with (eq_bytes b name)
    by (unfold pool_named; by rewrite Hb).
Qed.

Lemma filter_by_pool_name_Raise pool key name pre x post e :
  Forall (λ x, ∃ b, pool_name pool key x = Return b) pre →
  pool_name pool key x = Raise e →
  filter_by_pool_name pool key name (pre ++ x :: post) = Raise e.
Proof.
  intros Hpre Hx. induction Hpre as [|y pre (b & Hb) _ IH]; cbn [app].
  - by rewrite filter_by_pool_name_cons, Hx.
  - by rewrite filter_by_pool_name_cons, Hb, IH.
Qed.

(** X14. [find_methods_by_name] looks the name of every method up in the
    pool.  When every lookup returns, the result is the list of the
    methods whose pool entry has [name] as its [bytes], in the order of
    the class.  When the lookup of one method fails (its name index
    leads outside the pool, or to an entry without [bytes]), and those
    before it return, the search fails with the error of that lookup,
    whatever name is searched and whatever methods follow. *)
Theorem find_methods_by_name_lookup (clazz : JVMClass) (ms : list pyval)
    (name : list byte) :
  methods clazz = Some ms →
  (Forall (λ m, ∃ b, pool_name (constant_pool clazz) "name_index" m = Return b) ms →
     find_methods_by_name clazz name
     = Return (List.filter (pool_named (constant_pool clazz) "name_index" name) ms))
  ∧ (∀ pre m post e,
       ms = pre ++ m :: post →
       Forall (λ m, ∃ b, pool_name (constant_pool clazz) "name_index" m = Return b) pre →
       pool_name (constant_pool clazz) "name_index" m = Raise e →
       find_methods_by_name clazz name = Raise e).
Proof.
  intros Hms. unfold find_methods_by_name. rewrite Hms. split.
  - apply filter_by_pool_name_resolved.
  - intros pre m post e -> Hpre Hm. by apply filter_by_pool_name_Raise.
Qed.

Lemma attribute_ok_pool_name pool a :
  attribute_ok pool a →
  ∃ t, pool_name pool "attribute_name_index" a = Return (VBytes (AttributeInfoName_value t))
       ∧ ∀ name, named name a = pool_named pool "attribute_name_index" name a.
Proof.
  intros (index & t & info & entry & -> & Hi & He & Hb). exists t.
  assert (pool_name pool "attribute_name_index"
            (attribute_dict index (VBytes (AttributeInfoName_value t)) info)
          = Return (VBytes (AttributeInfoName_value t))) as Hname.
  { unfold pool_name, attribute_dict. cbn [py_item].
    rewrite lookup_insert_ne, lookup_insert_ne, lookup_insert_eq by done.
    cbn [obind py_index_pred]. unfold py_index.
    pose proof (lookup_lt_Some _ _ _ He). rewrite decide_True by lia.
    by rewrite He. }
  split; [done|]. intros name. unfold pool_named. rewrite Hname.
  unfold named, attribute_dict.
  by rewrite lookup_insert_ne, lookup_insert_eq by done.
Qed.

Lemma filter_ext_Forall {A} (p q : A → bool) (l : list A) :
  Forall (λ x, p x = q x) l → List.filter p l = List.filter q l.
Proof.
  induction 1 as [|x l Hx _ IH]; [done|]. cbn [List.filter]. by rewrite Hx, IH.
Qed.

Section searches.
Context {consts : jvmconsts}.

Lemma find_attributes_by_name_named (file : list byte) (clazz : JVMClass)
    (name : list byte) :
  parse_class_file file = Return clazz →
  ∃ attrs, attributes clazz = Some attrs
           ∧ find_attributes_by_name clazz name = Return (List.filter (named name) attrs).
Proof.
  intros Hfile.
  destruct (parse_class_file_inv file clazz Hfile)
    as (_ & _ & _ & (attrs & Hattrs & Hok) & _).
  exists attrs. split; [done|]. unfold find_attributes_by_name. rewrite Hattrs.
  rewrite filter_by_pool_name_resolved.
  - f_equal. symmetry. apply filter_ext_Forall.
    eapply Forall_impl; [exact Hok|]. intros a Ha.
    by destruct (attribute_ok_pool_name _ a Ha) as (t & _ & ->).
  - eapply Forall_impl; [exact Hok|]. intros a Ha.
    destruct (attribute_ok_pool_name _ a Ha) as (t & Ht & _). eauto.
Qed.

(** X15. On a class that [parse_class_file] returned,
    [find_attributes_by_name] never fails: it returns, in the order of
    the class, the attributes that were decoded under the name searched
    (those whose [_name] is [name]), since the pool entry that the search
    reads is the one the decoder took the name from. *)
Theorem find_attributes_by_name_decoded (file : list byte) (clazz : JVMClass)
    (name : list byte) :
  parse_class_file file = Return clazz →
  ∃ attrs, attributes clazz = Some attrs
           ∧ find_attributes_by_name clazz name = Return (List.filter (named name) attrs).
Proof. apply find_attributes_by_name_named. Qed.

End searches.

Lemma from_bsm_scan_found (attrs : list pyval) (index : Z) :
  Forall (λ a, ∃ d : dict, a = VDict d ∧ is_Some (d !! "_name")) attrs →
  from_bsm_scan attrs index
  = match List.filter (named (AttributeInfoName_value BOOTSTRAP_METHOD)) attrs with
    | [] => Raise (RuntimeError "Bootstrap method not found")
    | attr :: _ =>
        info <~ py_item attr "info" ;;;
        bootstrap_methods <~ py_item info "bootstrap_methods" ;;;
        py_subscript bootstrap_methods index
    end.
Proof.
  induction 1 as [|a attrs (d & -> & [v Hv]) _ IH]; [done|].
  cbn [from_bsm_scan List.filter named py_item obind]. rewrite Hv. cbn [obind].
  destruct (eq_bytes v _); [reflexivity|apply IH].
Qed.

Section bootstrap.
Context {consts : jvmconsts}.

(** X16. On a class that [parse_class_file] returned, [from_bsm] at an
    index that is not negative agrees with [find_attributes_by_name]: it
    fails with [RuntimeError] exactly when the search for
    BootstrapMethods returns no attribute, and otherwise indexes the
    method list of the first attribute that the search returns. *)
Theorem from_bsm_find_attributes (file : list byte) (clazz : JVMClass) (index : Z) :
  parse_class_file file = Return clazz →
  0 ≤ index →
  ∃ found,
    find_attributes_by_name clazz (AttributeInfoName_value BOOTSTRAP_METHOD) = Return found
    ∧ from_bsm clazz index
      = match found with
        | [] => Raise (RuntimeError "Bootstrap method not found")
        | attr :: _ =>
            info <~ py_item attr "info" ;;;
            bootstrap_methods <~ py_item info "bootstrap_methods" ;;;
            py_subscript bootstrap_methods index
        end.
Proof.
  intros Hfile Hindex.
  destruct (find_attributes_by_name_named file clazz
              (AttributeInfoName_value BOOTSTRAP_METHOD) Hfile)
    as (attrs & Hattrs & Hfind).
  destruct (parse_class_file_inv file clazz Hfile)
    as (_ & _ & _ & (attrs' & Hattrs' & Hok) & _).
  rewrite Hattrs in Hattrs'. injection Hattrs' as <-.
  eexists. split; [exact Hfind|].
  unfold from_bsm. rewrite decide_True by lia. rewrite Hattrs.
  apply from_bsm_scan_found.
  eapply Forall_impl; [exact Hok|].
  intros a (i & t & info & entry & -> & _). eexists. split; [reflexivity|].
  by rewrite lookup_insert_ne, lookup_insert_eq by done.
Qed.

End bootstrap.

Lemma two_methods_class_file_decoded :
  @parse_class_file jvms two_methods_class_file = Return two_methods_clazz.
Proof. vm_compute. reflexivity. Qed.

Lemma find_methods_by_name_lookup_witness :
  find_methods_by_name two_methods_clazz (list_byte_of_string "Main")
  = Raise (KeyError (VStr "bytes")).
Proof.
  eapply (proj2 (find_methods_by_name_lookup two_methods_clazz _ _ eq_refl)
            [method_dict ["ACC_PUBLIC"]%string 1 1 []]
            (method_dict ["ACC_PUBLIC"; "ACC_STATIC"]%string 2 1 []) []).
  - reflexivity.
  - apply Forall_cons; split; [|apply Forall_nil_2]. eexists. reflexivity.
  - reflexivity.
Defined.

Lemma find_attributes_by_name_decoded_witness :
  ∃ attrs,
    attributes two_bsm_clazz = Some attrs
    ∧ find_attributes_by_name two_bsm_clazz (AttributeInfoName_value BOOTSTRAP_METHOD)
      = Return (List.filter (named (AttributeInfoName_value BOOTSTRAP_METHOD)) attrs).
Proof.
  exact (@find_attributes_by_name_decoded jvms two_bsm_class_file two_bsm_clazz
           (AttributeInfoName_value BOOTSTRAP_METHOD) two_bsm_class_file_decoded).
Defined.

Lemma from_bsm_find_attributes_witness :
  ∃ found,
    find_attributes_by_name two_bsm_clazz (AttributeInfoName_value BOOTSTRAP_METHOD)
    = Return found
    ∧ from_bsm two_bsm_clazz 1
      = match found with
        | [] => Raise (RuntimeError "Bootstrap method not found")
        | attr :: _ =>
            info <~ py_item attr "info" ;;;
            bootstrap_methods <~ py_item info "bootstrap_methods" ;;;
            py_subscript bootstrap_methods 1
        end.
Proof.
  apply (@from_bsm_find_attributes jvms two_bsm_class_file two_bsm_clazz 1
           two_bsm_class_file_decoded).
  lia.
Defined.

(** ** The failures of [from_bsm] *)

(** X17. [from_bsm] on a class whose attributes are not set fails with
    [AssertionError], with the message about the index although the
    index is not at fault; and an index at or past the end of the method
    list of the first BootstrapMethods attribute fails with
    [IndexError]. *)
Theorem from_bsm_failures (clazz : JVMClass) (k : Z) :
  0 ≤ k →
  (attributes clazz = None →
     from_bsm clazz k
     = Raise (AssertionError "Bootstrap method index must be non-negative"))
  ∧ (∀ (pre post : list pyval) (attr info : dict) (ms : list pyval),
       attributes clazz = Some (pre ++ VDict attr :: post) →
       Forall (λ a, ∃ n, py_item a "_name" = Return n
                         ∧ eq_bytes n (AttributeInfoName_value BOOTSTRAP_METHOD) = false)
         pre →
       attr !! "_name" = Some (VBytes (AttributeInfoName_value BOOTSTRAP_METHOD)) →
       attr !! "info" = Some (VDict info) →
       info !! "bootstrap_methods" = Some (VList ms) →
       Z.of_nat (length ms) ≤ k →
       from_bsm clazz k = Raise IndexError).
Proof.
  intros Hk. unfold from_bsm. rewrite decide_True by lia. split.
  - by intros ->.
  - intros pre post attr info ms -> Hpre Hname Hinfo Hms Hlen.
    rewrite from_bsm_scan_skip by done.
    cbn [from_bsm_scan py_item obind]. rewrite Hname. cbn [obind eq_bytes].
    rewrite bool_decide_eq_true_2 by done.
    rewrite Hinfo. cbn [obind py_item]. rewrite Hms. cbn [obind py_subscript].
    apply py_index_out_of_range. lia.
Qed.

Lemma from_bsm_failures_witness :
  from_bsm two_bsm_clazz 2 = Raise IndexError.
Proof.
  eapply (proj2 (from_bsm_failures two_bsm_clazz 2 ltac:(lia)) _ _ _ _ _ eq_refl).
  - apply Forall_cons; split; [|apply Forall_nil_2].
    eexists. split; reflexivity.
  - reflexivity.
  - reflexivity.
  - reflexivity.
  - simpl. lia.
Defined.

(** ** Attribute lists, one after the other *)

Lemma iterM_add {S} (n m : nat) (body : S → M S) (s : S) (f : list byte) :
  iterM (n + m) body s f = (s' <~ iterM n body s ;; iterM m body s') f.
Proof.
  revert s f. induction n as [|n IH]; intros s f; [done|].
  cbn [Nat.add iterM]. unfold bind.
  destruct (body s f) as [[s' g]| |]; [|done..]. by rewrite IH.
Qed.

Lemma iterM_appending_acc {A} (m : M A) (n : nat) (acc : list A) (f : list byte) :
  iterM n (appending m) acc f
  = match iterM n (appending m) [] f with
    | Return (xs, f') => Return (acc ++ xs, f')
    | Raise e => Raise e
    | OutOfFuel => OutOfFuel
    end.
Proof.
  revert acc f. induction n as [|n IH]; intros acc f.
  - cbn [iterM]. unfold ret. by rewrite app_nil_r.
  - cbn [iterM]. unfold bind at 1 2, appending at 1 3, bind at 1 2.
    destruct (m f) as [[x g]| |]; [|done..]. unfold ret at 1 2.
    rewrite (IH (acc ++ [x])), (IH ([] ++ [x])).
    destruct (iterM n (appending m) [] g) as [[xs g']| |]; [|done..].
    by rewrite <- app_assoc.
Qed.

(** X18. Decoding n + m attributes is decoding n attributes and then m
    attributes from where the first n end, the two lists put together;
    an error in either part is the error of the whole. *)
Theorem parse_attributes_split (clazz : JVMClass) (n m : Z) (f : list byte) :
  0 ≤ n → 0 ≤ m →
  parse_attributes clazz (n + m) f
  = (xs <~ parse_attributes clazz n ;;
     ys <~ parse_attributes clazz m ;;
     ret (xs ++ ys)) f.
Proof.
  intros Hn Hm.
  assert (∀ k g, parse_attributes clazz k g
                 = iterM (Z.to_nat k) (appending (parse_attribute clazz)) [] g) as Hloop.
  { intros k g. by rewrite parse_attributes_unfold. }
  rewrite Hloop, Z2Nat.inj_add, iterM_add by lia.
  unfold bind at 1 2. rewrite Hloop.
  destruct (iterM (Z.to_nat n) _ [] f) as [[xs g]| |]; [|done..].
  rewrite iterM_appending_acc. unfold bind, ret. by rewrite Hloop.
Qed.

Lemma parse_attributes_split_witness :
  parse_attributes SourceFile_clazz_in_progress (1 + 1)
    [x00; x03; x00; x00; x00; x02; x00; x01; x00; x03; x00; x00; x00; x02; x00; x02]
  = (xs <~ parse_attributes SourceFile_clazz_in_progress 1 ;;
     ys <~ parse_attributes SourceFile_clazz_in_progress 1 ;;
     ret (xs ++ ys))
      [x00; x03; x00; x00; x00; x02; x00; x01; x00; x03; x00; x00; x00; x02; x00; x02].
Proof. apply parse_attributes_split; lia. Defined.

(** ** A class with methods *)

Section methods.
Context {consts : jvmconsts}.

Lemma parse_method_encodes clazz (e : (byte * byte) * (byte * byte) * (byte * byte)) :
  encodes (parse_method clazz) (method_bytes e) (method_entry e).
Proof.
  destruct e as [[[f1 f2] [n1 n2]] [d1 d2]]. intros rest.
  unfold parse_method, method_bytes. cbn [app fst snd].
  do 4 (erewrite bind_Return by apply parse_i2_cons).
  erewrite bind_Return by apply parse_attributes_zero. reflexivity.
Qed.

(** X19. A class file whose methods have no attributes is decoded to a
    class with as many methods as the methods count says, in the order
    of the file, each with its name index and descriptor index as read
    and its access flags decoded with the method flag table (the class
    flags are decoded with the class flag table); the indices are not
    checked against the pool. *)
Theorem class_with_methods (m1 m2 M1 M2 k1 k2 a1 a2 t1 t2 s1 s2 c1 c2 : byte)
    (encs : list (list byte * pyval))
    (ms : list ((byte * byte) * (byte * byte) * (byte * byte)))
    (rest : list byte) :
  length encs = Z.to_nat (be_to_Z [k1; k2] - 1) →
  Forall (λ be, encodes parse_cp_info be.1 be.2) encs →
  Z.of_nat (length ms) = be_to_Z [c1; c2] →
  parse_class_file
    (header m1 m2 M1 M2 k1 k2 ++ concat encs.*1
     ++ [a1; a2; t1; t2; s1; s2; x00; x00; x00; x00; c1; c2]
     ++ concat (method_bytes <$> ms) ++ [x00; x00] ++ rest)
  = Return {| version := (be_to_Z [M1; M2], be_to_Z [m1; m2]);
              constant_pool := encs.*2;
              methods := Some (method_entry <$> ms);
              attributes := Some [];
              access_flags := parse_flags (be_to_Z [a1; a2]) CLASS_ACCESS_FLAGS;
              this_class := be_to_Z [t1; t2];
              super_class := be_to_Z [s1; s2] |}.
Proof.
  intros Hlen Hencs Hms. unfold parse_class_file, on_bytes.
  rewrite parse_class_file_stream_header.
  rewrite (bind_Return _ _ _ _ _ (parse_constant_pool_encoded_nat _ _ _ Hlen Hencs)).
  unfold after_constant_pool. cbn [app].
  do 4 (erewrite bind_Return by apply parse_i2_cons).
  erewrite bind_Return by apply for_range_zero.
  erewrite bind_Return by apply parse_i2_cons.
  erewrite bind_Return by apply for_range_zero.
  erewrite bind_Return by apply parse_i2_cons.
  cbv zeta.
  erewrite bind_Return;
    [|eapply (for_range_records _ _ method_bytes method_entry);
      [intros acc f; reflexivity
      |apply Forall_forall; intros e _; apply parse_method_encodes
      |exact Hms]].
  cbn [app].
  erewrite bind_Return by apply parse_i2_cons.
  erewrite bind_Return by apply parse_attributes_zero. reflexivity.
Qed.

End methods.

Lemma class_with_methods_witness :
  @parse_class_file jvms
    (header x00 x00 x00 x34 x00 x03 ++ concat Main_pool.*1
     ++ [x00; x21; x00; x02; x00; x00; x00; x00; x00; x00; x00; x02]
     ++ concat (method_bytes <$> [((x00, x01), (x00, x01), (x00, x01));
                                  ((x00, x09), (x00, x02), (x00, x01))])
     ++ [x00; x00] ++ [])
  = Return two_methods_clazz.
Proof.
  apply (@class_with_methods jvms x00 x00 x00 x34 x00 x03 x00 x21 x00 x02 x00 x00
           x00 x02 Main_pool
           [((x00, x01), (x00, x01), (x00, x01)); ((x00, x09), (x00, x02), (x00, x01))]
           []).
  - reflexivity.
  - apply Main_pool_encodes.
  - reflexivity.
Defined.
